(** * Balloon ascent: simulator, parameter search and profile preparation

    A shallow embedding of [main.py].

    Numbers.  The program computes with Python numbers (ints and floats).
    They are embedded as exact rationals [Q]: every arithmetic operation is
    the mathematical one, a decimal literal of the source ([0.1], [9.8],
    [1.225], [1.2]) is the rational it denotes, and the one operation of
    the source that can raise on numbers, the division of
    [simulate_balloon_ascent], raises on a zero divisor as Python's does.
    Rounding, overflow and NaN are outside this model.

    Control.  Both [while] loops of the source are unbounded, so each loop
    is a [Fixpoint] on a fuel counter: one unit of fuel is one evaluation of
    the loop condition, and [Running] is the outcome of a loop that has not
    left yet.  Every function of the source wraps its body in
    [try: ... except Exception: print(...); return None]; that outcome is
    [Failed].

    Library functions.  [np.cos] has no rational counterpart and is a
    parameter of the simulator; [np.sqrt] and [np.arctan2], which the
    profile preparation applies to the wind, are the functions on real
    numbers. *)

From Stdlib Require Import QArith Qabs Qminmax Qround List Sorted Lia Lqa ZArith Bool.
From Stdlib Require Ascii String.
From Stdlib Require Reals Qreals Lra.
Import ListNotations.

Local Open Scope Q_scope.

(** ** Outcomes of a call *)

Inductive result (A : Type) : Type :=
| Returned (a : A)   (* the call returned [a] *)
| Failed             (* an exception was caught: the call returned [None] *)
| Running.           (* the fuel is spent and the loop has not left *)

Arguments Returned {A} a.
Arguments Failed {A}.
Arguments Running {A}.

(** Python's [x < y] on numbers. *)
Definition Qltb (x y : Q) : bool := negb (Qle_bool y x).

(** ** The simulator: [simulate_balloon_ascent] *)

(** A trajectory point is the tuple [(horizontal_position, height)]. *)
Definition point : Type := (Q * Q)%type.

Definition position (p : point) : Q := fst p.
Definition altitude (p : point) : Q := snd p.

(** [trajectory[:, 1]]: the column of heights. *)
Definition heights (trajectory : list point) : list Q := map altitude trajectory.

(** A profile array (temperature, humidity or pressure over the height grid). *)
Definition profile : Type := list (option Q).

Section Simulator.

(** [np.cos]. *)
Variable cos : Q -> Q.

(** The arguments that the loop reads, fixed while it runs. *)
Variables mass_cargo volume_balloon lift_force : Q.
Variables wind_speed wind_direction : Q.

Definition dt : Q := 0.1.

(** [mass_cargo + volume_balloon * 1.225], the divisor of line 76. *)
Definition total_mass : Q := mass_cargo + volume_balloon * 1.225.

(** Line 76, when the division does not raise. *)
Definition vertical_speed : Q := (lift_force - mass_cargo * 9.8) / total_mass.

(** Line 77. *)
Definition horizontal_speed : Q := wind_speed * cos wind_direction.

(** The loop of lines 74-80, entered with the current [height],
    [horizontal_position] and [trajectory]. *)
Fixpoint ascent_loop (fuel : nat) (height horizontal_position : Q)
         (trajectory : list point) : result (list point) :=
  match fuel with
  | O => Running
  | S fuel' =>
      if Qltb height 20000 then
        if Qeq_bool total_mass 0 then Failed (* ZeroDivisionError *)
        else
          let height' := height + vertical_speed * dt in
          let horizontal_position' := horizontal_position + horizontal_speed * dt in
          ascent_loop fuel' height' horizontal_position'
                      (trajectory ++ [(horizontal_position', height')])
      else Returned trajectory
  end.

End Simulator.

(** Lines 63-84: the function with the eight arguments of the source (and
    [np.cos], and the fuel of its loop). *)
Definition simulate_balloon_ascent (cos : Q -> Q) (fuel : nat)
           (mass_cargo volume_balloon lift_force : Q)
           (temperature humidity pressure : profile)
           (wind_speed wind_direction : Q) : result (list point) :=
  ascent_loop cos mass_cargo volume_balloon lift_force wind_speed wind_direction
              fuel 0 0 [].

(** ** The parameter search: [optimize_balloon_parameters] *)

(** [np.max] of a column; it raises on an empty one. *)
Definition np_max (column : list Q) : option Q :=
  match column with
  | [] => None
  | x :: rest => Some (fold_left Qmax rest x)
  end.

(** The arguments [(mass_cargo, volume_balloon, lift_force)] of one call of
    the simulator, as the search passes them. *)
Record launch : Type := Launch {
  launch_mass : Q;
  launch_volume : Q;
  launch_lift : Q
}.

(** Lines 101-104: the branch that changes one of the two parameters. *)
Definition adjust (max_height target_height mass_cargo volume_balloon : Q) : Q * Q :=
  if Qltb max_height target_height
  then (mass_cargo, volume_balloon + 1)
  else (mass_cargo - 0.1, volume_balloon).

Section Optimizer.

Variable cos : Q -> Q.
(** Fuel of every run of the simulator. *)
Variable sim_fuel : nat.

Variable target_height : Q.
Variables temperature humidity pressure : profile.
Variables wind_speed wind_direction : Q.

(** Lines 95-99, and again 105-109: the lift of the current volume, one
    run of the simulator, and the maximum of the heights it returned.
    The launch is returned with the outcome, as a record of the call. *)
Definition measure (mass_cargo volume_balloon : Q) : launch * result Q :=
  let lift_force := volume_balloon * (1.225 - 1.2) * 9.8 in
  (Launch mass_cargo volume_balloon lift_force,
   match simulate_balloon_ascent cos sim_fuel mass_cargo volume_balloon lift_force
                                 temperature humidity pressure
                                 wind_speed wind_direction with
   | Returned trajectory =>
       match np_max (heights trajectory) with
       | Some max_height => Returned max_height
       | None => Failed
       end
   | Failed => Failed (* [trajectory is None]: [return None, None] *)
   | Running => Running
   end).

(** The loop of lines 100-110, entered with the current parameters and the
    current [max_height].  Besides the outcome it returns the launches it
    made, in order. *)
Fixpoint search_loop (fuel : nat) (mass_cargo volume_balloon max_height : Q)
  : list launch * result (Q * Q) :=
  match fuel with
  | O => ([], Running)
  | S fuel' =>
      if Qltb 100 (Qabs (max_height - target_height)) then
        let '(mass_cargo', volume_balloon') :=
          adjust max_height target_height mass_cargo volume_balloon in
        let '(call, measured) := measure mass_cargo' volume_balloon' in
        match measured with
        | Returned max_height' =>
            let '(calls, outcome) :=
              search_loop fuel' mass_cargo' volume_balloon' max_height' in
            (call :: calls, outcome)
        | Failed => ([call], Failed)
        | Running => ([call], Running)
        end
      else ([], Returned (mass_cargo, volume_balloon))
  end.

(** Lines 95-110 from given first values of the two parameters. *)
Definition optimize_from (fuel : nat) (mass_cargo volume_balloon : Q)
  : list launch * result (Q * Q) :=
  let '(call, measured) := measure mass_cargo volume_balloon in
  match measured with
  | Returned max_height =>
      let '(calls, outcome) :=
        search_loop fuel mass_cargo volume_balloon max_height in
      (call :: calls, outcome)
  | Failed => ([call], Failed)
  | Running => ([call], Running)
  end.

(** Lines 93-110: the search from [mass_cargo = 2], [volume_balloon = 10]. *)
Definition optimize_trace (fuel : nat) : list launch * result (Q * Q) :=
  optimize_from fuel 2 10.

End Optimizer.

(** The function of the source: the outcome of the search. *)
Definition optimize_balloon_parameters (cos : Q -> Q) (sim_fuel fuel : nat)
           (target_height : Q) (temperature humidity pressure : profile)
           (wind_speed wind_direction : Q) : result (Q * Q) :=
  snd (optimize_trace cos sim_fuel target_height temperature humidity pressure
                      wind_speed wind_direction fuel).

(** ** The profile preparation: [analyze_atmospheric_data] *)

(** One height level of the dataset: the value of the coordinate [height]
    and of the five variables there.  A dataset is the list of its levels,
    so the five variables share the coordinate, as they do in an
    [xr.Dataset]. *)
Record level : Type := Level {
  height : Q;
  temperature : Q;
  humidity : Q;
  pressure : Q;
  u_wind : Q;
  v_wind : Q
}.

Definition dataset : Type := list level.

(** [np.linspace(start, stop, num)]: [num] evenly spaced samples,
    [start + i * (stop - start) / (num - 1)]. *)
Definition linspace (start stop : Q) (num : nat) : list Q :=
  map (fun i => start + inject_Z (Z.of_nat i)
                        * ((stop - start) / inject_Z (Z.of_nat (num - 1))))
      (seq 0 num).

(** The value at [x] of the line through [(x0, y0)] and [(x1, y1)]. *)
Definition line_through (x0 y0 x1 y1 x : Q) : Q :=
  y0 + (x - x0) * ((y1 - y0) / (x1 - x0)).

(** The value at [x] of the piecewise linear function through the points
    [(xp_i, fp_i)], whose [xp_i] increase, and no value (NaN) outside of
    them; through one point alone, its value there and no value elsewhere. *)
Fixpoint interp_at (xp fp : list Q) (x : Q) : option Q :=
  match xp, fp with
  | x0 :: ((x1 :: _) as xp'), y0 :: ((y1 :: _) as fp') =>
      if Qle_bool x0 x && Qle_bool x x1
      then Some (line_through x0 y0 x1 y1 x)
      else interp_at xp' fp' x
  | [x0], [y0] => if Qeq_bool x x0 then Some y0 else None
  | _, _ => None
  end.

(** The levels in the order of their heights: [DataArray.interp] sorts the
    coordinate it interpolates over before it interpolates. *)
Fixpoint insert_level (a : level) (sorted : list level) : list level :=
  match sorted with
  | [] => [a]
  | b :: rest =>
      if Qle_bool (height a) (height b) then a :: b :: rest
      else b :: insert_level a rest
  end.

Definition sort_levels (data : dataset) : list level :=
  fold_right insert_level [] data.

(** Whether a value occurs twice in a coordinate. *)
Fixpoint repeated_height (xp : list Q) : bool :=
  match xp with
  | [] => false
  | x :: rest => existsb (Qeq_bool x) rest || repeated_height rest
  end.

(** No two levels of the dataset have the same height. *)
Definition distinct_heights (data : dataset) : Prop :=
  ForallOrdPairs (fun a b => ~ height a == height b) data.

(** Level [b] is below level [c]. *)
Definition below_level (b c : level) : Prop := height b < height c.

(** [atmospheric_data[name].interp(height=grid)], whose method is linear
    unless another is asked for, on a coordinate that [interp] accepts. *)
Definition interp (data : dataset) (variable : level -> Q) (grid : list Q) : profile :=
  map (interp_at (map height (sort_levels data)) (map variable (sort_levels data)))
      grid.

(** [np.sqrt] and [np.arctan2] on real numbers; the wind components, which
    are rationals here, are read as reals. *)
Module Wind.

Import Reals Qreals.
Local Open Scope R_scope.

(** [np.sqrt(u**2 + v**2)]. *)
Definition speed (u v : Q) : R := sqrt (Q2R u ^ 2 + Q2R v ^ 2).

(** [np.arctan2(y, x)]: the angle of the point [(x, y)], in radians. *)
Definition arctan2 (y x : R) : R :=
  if Rlt_dec 0 x then atan (y / x)
  else if Rlt_dec x 0
       then if Rle_dec 0 y then atan (y / x) + PI else atan (y / x) - PI
       else if Rlt_dec 0 y then PI / 2
            else if Rlt_dec y 0 then - (PI / 2) else 0.

(** [np.arctan2(v, u)]. *)
Definition direction (u v : Q) : R := arctan2 (Q2R v) (Q2R u).

End Wind.

(** Lines 51-61.  [DataArray.interp] raises on a coordinate that is empty
    or in which a height occurs twice; the function catches the exception
    and returns five [None]. *)
Definition analyze_atmospheric_data (atmospheric_data : dataset)
  : result (profile * profile * profile
            * list Rdefinitions.R * list Rdefinitions.R) :=
  match atmospheric_data with
  | [] => Failed
  | _ :: _ =>
      if repeated_height (map height atmospheric_data) then Failed
      else
        let temperature' :=
          interp atmospheric_data temperature (linspace 0 20000 1000) in
        let humidity' := interp atmospheric_data humidity (linspace 0 20000 1000) in
        let pressure' := interp atmospheric_data pressure (linspace 0 20000 1000) in
        let wind_speed :=
          map (fun l => Wind.speed (u_wind l) (v_wind l)) atmospheric_data in
        let wind_direction :=
          map (fun l => Wind.direction (u_wind l) (v_wind l)) atmospheric_data in
        Returned (temperature', humidity', pressure', wind_speed, wind_direction)
  end.

(** ** The request of [get_atmospheric_data] *)

Module Request.

Import Ascii String.

(** [s.split(sep)] for a one-character separator: the pieces of [s] between
    the occurrences of [sep], one more than there are occurrences. *)
Fixpoint split_on (sep : ascii) (s : string) : list string :=
  match s with
  | EmptyString => [EmptyString]
  | String c rest =>
      if Ascii.eqb c sep then EmptyString :: split_on sep rest
      else match split_on sep rest with
           | piece :: pieces => String c piece :: pieces
           | [] => [String c EmptyString]
           end
  end.

(** The number of occurrences of a character in a string. *)
Fixpoint occurrences (sep : ascii) (s : string) : nat :=
  match s with
  | EmptyString => O
  | String c rest =>
      if Ascii.eqb c sep then S (occurrences sep rest) else occurrences sep rest
  end.

Definition base_url : string :=
  "https://nomads.ncep.noaa.gov/cgi-bin/filter_gfs_0p25.pl"%string.

(** Lines 18-20: the address that [get_atmospheric_data] builds from the
    region and the formatted date, or nothing when an index into
    [region.split('/')] is out of range (the [IndexError] is caught by the
    function, which then returns [None] without opening anything). *)
Definition request_url (region date_str : string) : option string :=
  match split_on "/"%char region with
  | leftlon :: rightlon :: bottomlat :: toplat :: _ =>
      Some (String.concat EmptyString
              [base_url;
               "?file=gfs.t00z.pgrb2.0p25.f000&lev_2_m_above_ground=on&var_TCDC=on&var_TMP=on&var_RH=on&var_UGRD=on&var_VGRD=on&subregion=&leftlon="%string;
               leftlon; "&rightlon="%string; rightlon;
               "&toplat="%string; toplat;
               "&bottomlat="%string; bottomlat;
               "&dir=%2Fgfs."%string; date_str; "%2F00%2Fatmos"%string])
  | _ => None
  end.

End Request.

(** ** Iterates of the simulator's loop body, for the statements below *)

Section Iterates.

Variable cos : Q -> Q.
Variables mass_cargo volume_balloon lift_force : Q.
Variables wind_speed wind_direction : Q.

(** The height after [n] iterations entered at [height]. *)
Fixpoint height_after (n : nat) (height : Q) : Q :=
  match n with
  | O => height
  | S n' =>
      height_after n' (height + vertical_speed mass_cargo volume_balloon lift_force * dt)
  end.

(** The horizontal position after [n] iterations. *)
Fixpoint position_after (n : nat) (horizontal_position : Q) : Q :=
  match n with
  | O => horizontal_position
  | S n' =>
      position_after n' (horizontal_position
                         + horizontal_speed cos wind_speed wind_direction * dt)
  end.

(** The points that [n] iterations append, in order. *)
Fixpoint climb (n : nat) (height horizontal_position : Q) : list point :=
  match n with
  | O => []
  | S n' =>
      let height' :=
        height + vertical_speed mass_cargo volume_balloon lift_force * dt in
      let horizontal_position' :=
        horizontal_position + horizontal_speed cos wind_speed wind_direction * dt in
      (horizontal_position', height') :: climb n' height' horizontal_position'
  end.

End Iterates.


(** * Properties *)

(** ** Comparisons *)

Lemma Qltb_true (x y : Q) : Qltb x y = true <-> x < y.
Proof.
  unfold Qltb. rewrite negb_true_iff. split.
  - intros H. apply Qnot_le_lt. intros L.
    apply Qle_bool_iff in L. congruence.
  - intros H. destruct (Qle_bool y x) eqn:E; [|reflexivity].
    apply Qle_bool_iff in E. lra.
Qed.

Lemma Qltb_false (x y : Q) : Qltb x y = false <-> y <= x.
Proof.
  unfold Qltb. rewrite negb_false_iff. apply Qle_bool_iff.
Qed.


(** ** The loop of the simulator *)

Section AscentFacts.

Variable cos : Q -> Q.
Variables m V L ws wd : Q.

Abbreviation loop := (ascent_loop cos m V L ws wd).
Abbreviation vs := (vertical_speed m V L).
Abbreviation hs := (horizontal_speed cos ws wd).
Abbreviation h_after := (height_after m V L).
Abbreviation p_after := (position_after cos ws wd).
Abbreviation points := (climb cos m V L ws wd).

Lemma loop_exit fuel h hp acc :
  20000 <= h -> loop (S fuel) h hp acc = Returned acc.
Proof.
  intros H. simpl. apply Qltb_false in H. now rewrite H.
Qed.

Lemma loop_iterate fuel h hp acc :
  h < 20000 -> ~ total_mass m V == 0 ->
  loop (S fuel) h hp acc
  = loop fuel (h + vs * dt) (hp + hs * dt) (acc ++ [(hp + hs * dt, h + vs * dt)]).
Proof.
  intros H Hm. simpl. apply Qltb_true in H. rewrite H.
  destruct (Qeq_bool (total_mass m V) 0) eqn:E; [|reflexivity].
  apply Qeq_bool_iff in E. contradiction.
Qed.

Lemma loop_raise fuel h hp acc :
  h < 20000 -> total_mass m V == 0 -> loop (S fuel) h hp acc = Failed.
Proof.
  intros H Hm. simpl. apply Qltb_true in H. rewrite H.
  apply Qeq_bool_iff in Hm. now rewrite Hm.
Qed.

Lemma height_after_S n h : h_after (S n) h = h_after n h + vs * dt.
Proof.
  revert h. induction n as [|n IH]; intros h; [reflexivity|].
  change (h_after (S (S n)) h) with (h_after (S n) (h + vs * dt)).
  rewrite IH. reflexivity.
Qed.

Lemma position_after_S n hp : p_after (S n) hp = p_after n hp + hs * dt.
Proof.
  revert hp. induction n as [|n IH]; intros hp; [reflexivity|].
  change (p_after (S (S n)) hp) with (p_after (S n) (hp + hs * dt)).
  rewrite IH. reflexivity.
Qed.

Lemma height_after_closed n h :
  h_after n h == h + inject_Z (Z.of_nat n) * (vs * dt).
Proof.
  induction n as [|n IH].
  - simpl. ring.
  - rewrite height_after_S, IH, Nat2Z.inj_succ. unfold Z.succ.
    rewrite inject_Z_plus. ring.
Qed.

Lemma climb_length n h hp : length (points n h hp) = n.
Proof.
  revert h hp. induction n as [|n IH]; intros h hp; simpl; [reflexivity|].
  now rewrite IH.
Qed.

Lemma climb_nth n h hp k d :
  (k < n)%nat ->
  nth k (points n h hp) d = (p_after (S k) hp, h_after (S k) h).
Proof.
  revert h hp k. induction n as [|n IH]; intros h hp k Hk; [lia|].
  destruct k as [|k]; [reflexivity|].
  simpl nth. rewrite IH by lia. reflexivity.
Qed.

Lemma climb_snoc n h hp :
  points (S n) h hp = points n h hp ++ [(p_after (S n) hp, h_after (S n) h)].
Proof.
  revert h hp. induction n as [|n IH]; intros h hp; [reflexivity|].
  change (points (S (S n)) h hp)
    with ((hp + hs * dt, h + vs * dt) :: points (S n) (h + vs * dt) (hp + hs * dt)).
  rewrite IH. reflexivity.
Qed.

(** A loop that returns has run some number [n] of iterations: it appended
    the [n] points of [climb], the height was below 20000 before each of
    them and is at least 20000 after the last. *)
Lemma loop_returned fuel : forall h hp acc trajectory,
  loop fuel h hp acc = Returned trajectory ->
  exists n, (n < fuel)%nat /\ trajectory = acc ++ points n h hp
            /\ 20000 <= h_after n h
            /\ (forall k, (k < n)%nat -> h_after k h < 20000)
            /\ ((0 < n)%nat -> ~ total_mass m V == 0).
Proof.
  induction fuel as [|fuel IH]; intros h hp acc trajectory H; [discriminate|].
  simpl in H. destruct (Qltb h 20000) eqn:E.
  - destruct (Qeq_bool (total_mass m V) 0) eqn:Em; [discriminate|].
    apply IH in H. destruct H as (n & Hn & -> & Hge & Hlt & _).
    exists (S n). repeat split.
    + lia.
    + rewrite <- app_assoc. reflexivity.
    + exact Hge.
    + intros [|k] Hk; [now apply Qltb_true|]. apply Hlt. lia.
    + intros _ Hz. apply Qeq_bool_iff in Hz. congruence.
  - injection H as <-. exists O. repeat split.
    + lia.
    + now rewrite app_nil_r.
    + now apply Qltb_false.
    + intros k Hk. lia.
    + lia.
Qed.

(** Conversely, [n] iterations below 20000 that end at or above it are
    what the loop runs, with any fuel above [n]. *)
Lemma loop_runs n : forall fuel h hp acc,
  (n < fuel)%nat -> ~ total_mass m V == 0 ->
  (forall k, (k < n)%nat -> h_after k h < 20000) ->
  20000 <= h_after n h ->
  loop fuel h hp acc = Returned (acc ++ points n h hp).
Proof.
  induction n as [|n IH]; intros fuel h hp acc Hf Hm Hlt Hge.
  - destruct fuel as [|fuel]; [lia|]. simpl points. rewrite app_nil_r.
    now apply loop_exit.
  - destruct fuel as [|fuel]; [lia|].
    rewrite loop_iterate; [|apply (Hlt O); lia|exact Hm].
    rewrite IH; [|lia|exact Hm| |exact Hge].
    + rewrite <- app_assoc. reflexivity.
    + intros k Hk. apply (Hlt (S k)). lia.
Qed.

(** A loop that has not left with some fuel and below 20000 at every
    iterate never leaves. *)
Lemma loop_stays fuel : forall h hp acc,
  ~ total_mass m V == 0 ->
  (forall k, h_after k h < 20000) ->
  loop fuel h hp acc = Running.
Proof.
  induction fuel as [|fuel IH]; intros h hp acc Hm Hlt; [reflexivity|].
  rewrite loop_iterate; [|apply (Hlt O)|exact Hm].
  apply IH; [exact Hm|]. intros k. apply (Hlt (S k)).
Qed.

End AscentFacts.

(** ** Speeds and closed forms *)


Lemma vertical_speed_nonpos m V L :
  L <= m * 9.8 -> 0 < total_mass m V -> vertical_speed m V L * dt <= 0.
Proof.
  intros HL Hm. unfold vertical_speed, Qdiv, dt.
  assert (Hi : 0 < / total_mass m V) by now apply Qinv_lt_0_compat.
  assert (Hn : 0 <= m * 9.8 - L) by lra.
  assert (Hp : 0 <= (m * 9.8 - L) * / total_mass m V)
    by (apply Qmult_le_0_compat; [exact Hn|now apply Qlt_le_weak]).
  lra.
Qed.


(** With a step [d <= 0] the height never rises above where it started. *)
Lemma height_after_le m V L n h :
  vertical_speed m V L * dt <= 0 -> height_after m V L n h <= h.
Proof.
  intros Hd. rewrite height_after_closed.
  assert (0 <= inject_Z (Z.of_nat n)).
  { change 0 with (inject_Z 0). rewrite <- Zle_Qle. lia. }
  assert (inject_Z (Z.of_nat n) * (vertical_speed m V L * dt) <= 0).
  { setoid_replace (inject_Z (Z.of_nat n) * (vertical_speed m V L * dt))
      with (- (inject_Z (Z.of_nat n) * - (vertical_speed m V L * dt))) by ring.
    assert (0 <= inject_Z (Z.of_nat n) * - (vertical_speed m V L * dt))
      by (apply Qmult_le_0_compat; lra).
    lra. }
  lra.
Qed.

(** ** The simulator: one step, and the shape of a returned trajectory *)

(** The trajectory that the simulator returns, read off its loop. *)
Lemma simulate_returned cos fuel m V L t h p ws wd trajectory :
  simulate_balloon_ascent cos fuel m V L t h p ws wd = Returned trajectory ->
  exists n, (0 < n < fuel)%nat
            /\ trajectory = climb cos m V L ws wd n 0 0
            /\ 20000 <= height_after m V L n 0
            /\ (forall k, (k < n)%nat -> height_after m V L k 0 < 20000)
            /\ ~ total_mass m V == 0.
Proof.
  intros H. apply loop_returned in H.
  destruct H as (n & Hn & Ht & Hge & Hlt & Hm).
  assert (0 < n)%nat.
  { destruct n as [|n]; [|lia]. simpl in Hge. lra. }
  exists n. repeat split; try assumption; try lia. now apply Hm.
Qed.

(** Two neighbouring points of a climb differ by one step. *)
Lemma climb_next cos m V L ws wd n h hp k d :
  (S k < n)%nat ->
  nth (S k) (climb cos m V L ws wd n h hp) d
  = (position (nth k (climb cos m V L ws wd n h hp) d)
     + horizontal_speed cos ws wd * dt,
     altitude (nth k (climb cos m V L ws wd n h hp) d)
     + vertical_speed m V L * dt).
Proof.
  intros Hk. rewrite !climb_nth by lia. unfold position, altitude, fst, snd.
  now rewrite (position_after_S cos ws wd (S k)), (height_after_S m V L (S k)).
Qed.

(** C2.  One iteration of the simulator's loop, entered below 20000 m with
    a divisor that is not zero, computes
    [vertical_speed = (lift_force - mass_cargo * 9.8) / (mass_cargo + volume_balloon * 1.225)]
    and [horizontal_speed = wind_speed * cos wind_direction], adds
    [vertical_speed * 0.1] to the height and [horizontal_speed * 0.1] to the
    horizontal position, appends the point [(horizontal_position, height)]
    to the trajectory and goes on from that state.  So a step that reaches
    20000 m returns the trajectory with exactly that point appended; every
    trajectory returned from the state begins with the trajectory so far
    followed by that point; and in every trajectory that the simulator
    returns (it is this loop entered at height 0, position 0 and the empty
    trajectory) the first point is one step from [(0, 0)] and each later
    point is one step from the point before it. *)
Theorem simulate_step_update (cos : Q -> Q) (fuel : nat)
        (mass_cargo volume_balloon lift_force wind_speed wind_direction : Q)
        (altitude0 horizontal_position : Q) (trajectory : list point)
        (temperature1 humidity1 pressure1 : profile) :
  altitude0 < 20000 ->
  ~ mass_cargo + volume_balloon * 1.225 == 0 ->
  let vertical_speed := (lift_force - mass_cargo * 9.8)
                        / (mass_cargo + volume_balloon * 1.225) in
  let horizontal_speed := wind_speed * cos wind_direction in
  let altitude' := altitude0 + vertical_speed * 0.1 in
  let horizontal_position' := horizontal_position + horizontal_speed * 0.1 in
  ascent_loop cos mass_cargo volume_balloon lift_force wind_speed wind_direction
              (S fuel) altitude0 horizontal_position trajectory
  = ascent_loop cos mass_cargo volume_balloon lift_force wind_speed wind_direction
                fuel altitude' horizontal_position'
                (trajectory ++ [(horizontal_position', altitude')])
  /\ simulate_balloon_ascent cos fuel mass_cargo volume_balloon lift_force
                             temperature1 humidity1 pressure1
                             wind_speed wind_direction
     = ascent_loop cos mass_cargo volume_balloon lift_force wind_speed
                   wind_direction fuel 0 0 []
  /\ (20000 <= altitude' ->
      ascent_loop cos mass_cargo volume_balloon lift_force wind_speed wind_direction
                  (S (S fuel)) altitude0 horizontal_position trajectory
      = Returned (trajectory ++ [(horizontal_position', altitude')]))
  /\ (forall fuel' returned,
        ascent_loop cos mass_cargo volume_balloon lift_force wind_speed
                    wind_direction fuel' altitude0 horizontal_position trajectory
        = Returned returned ->
        exists rest,
          returned = trajectory ++ (horizontal_position', altitude') :: rest)
  /\ (forall fuel' returned k d,
        simulate_balloon_ascent cos fuel' mass_cargo volume_balloon lift_force
                                temperature1 humidity1 pressure1
                                wind_speed wind_direction = Returned returned ->
        nth 0 returned d = (0 + horizontal_speed * 0.1, 0 + vertical_speed * 0.1)
        /\ ((S k < length returned)%nat ->
            nth (S k) returned d
            = (position (nth k returned d) + horizontal_speed * 0.1,
               altitude (nth k returned d) + vertical_speed * 0.1))).
Proof.
  intros Hh Hm. cbv zeta.
  split; [now apply loop_iterate|]. split; [reflexivity|]. split; [|split].
  - intros Hge. rewrite loop_iterate by assumption. now apply loop_exit.
  - intros fuel' returned H. apply loop_returned in H.
    destruct H as (n & _ & -> & Hge & _ & _).
    destruct n as [|n]; [simpl in Hge; lra|].
    eexists. reflexivity.
  - intros fuel' returned k d H. apply simulate_returned in H.
    destruct H as (n & Hn & -> & _). split.
    + destruct n as [|n]; [lia|]. reflexivity.
    + rewrite climb_length. intros Hk. now apply climb_next.
Qed.

Lemma simulate_step_update_witness :
  (10000 < 20000 /\ ~ 1 + 0 * 1.225 == 0)
  /\ ascent_loop (fun _ => 1) 1 0 100009.8 3 0 5 10000 7 [(7, 10000)]
     = ascent_loop (fun _ => 1) 1 0 100009.8 3 0 4
                   (10000 + (100009.8 - 1 * 9.8) / (1 + 0 * 1.225) * 0.1)
                   (7 + 3 * 1 * 0.1)
                   ([(7, 10000)]
                      ++ [(7 + 3 * 1 * 0.1,
                           10000 + (100009.8 - 1 * 9.8) / (1 + 0 * 1.225) * 0.1)])
  /\ ascent_loop (fun _ => 1) 1 0 100009.8 3 0 6 10000 7 [(7, 10000)]
     = Returned ([(7, 10000)]
                   ++ [(7 + 3 * 1 * 0.1,
                        10000 + (100009.8 - 1 * 9.8) / (1 + 0 * 1.225) * 0.1)]).
Proof.
  split.
  - split; [reflexivity | intros H; discriminate H].
  - pose proof (simulate_step_update (fun _ => 1) 4 1 0 100009.8 3 0 10000 7
                  [(7, 10000)] [] [] []) as H.
    cbv zeta in H.
    destruct H as (Hstep & _ & Hleave & _);
      [reflexivity | intros H; discriminate H |].
    split; [exact Hstep|]. apply Hleave. intros H; discriminate H.
Defined.

(** C10.  Two calls of the simulator that agree on the masses, the lift and
    the wind return the same outcome whatever the temperature, humidity and
    pressure arguments are: the simulator does not read them. *)
Theorem simulate_ignores_profiles (cos : Q -> Q) (fuel : nat)
        (mass_cargo volume_balloon lift_force wind_speed wind_direction : Q)
        (temperature1 humidity1 pressure1 temperature2 humidity2 pressure2 : profile) :
  simulate_balloon_ascent cos fuel mass_cargo volume_balloon lift_force
                          temperature1 humidity1 pressure1 wind_speed wind_direction
  = simulate_balloon_ascent cos fuel mass_cargo volume_balloon lift_force
                            temperature2 humidity2 pressure2 wind_speed wind_direction.
Proof.
  reflexivity.
Qed.

(** C9, as amended.  A trajectory that the simulator returns is not empty;
    its [k]-th point (counted from 0) is the state after [k + 1] iterations
    from the launch state [(0, 0)], so its first point is
    [(horizontal_speed * 0.1, vertical_speed * 0.1)] and the launch state
    itself is not in it; every point but the last is below 20000 m and the
    last one is at or above 20000 m. *)
Theorem trajectory_shape (cos : Q -> Q) (fuel : nat)
        (mass_cargo volume_balloon lift_force : Q)
        (temperature1 humidity1 pressure1 : profile)
        (wind_speed wind_direction : Q) (trajectory : list point) :
  simulate_balloon_ascent cos fuel mass_cargo volume_balloon lift_force
                          temperature1 humidity1 pressure1
                          wind_speed wind_direction = Returned trajectory ->
  (0 < length trajectory)%nat
  /\ (forall k d, (k < length trajectory)%nat ->
        nth k trajectory d
        = (position_after cos wind_speed wind_direction (S k) 0,
           height_after mass_cargo volume_balloon lift_force (S k) 0))
  /\ hd_error trajectory
     = Some (0 + wind_speed * cos wind_direction * 0.1,
             0 + (lift_force - mass_cargo * 9.8)
                 / (mass_cargo + volume_balloon * 1.225) * 0.1)
  /\ (forall k d, (S k < length trajectory)%nat ->
        altitude (nth k trajectory d) < 20000)
  /\ (forall d, 20000 <= altitude (last trajectory d)).
Proof.
  intros H. apply simulate_returned in H.
  destruct H as (n & Hn & -> & Hge & Hlt & _).
  rewrite climb_length. repeat split.
  - lia.
  - intros k d Hk. now apply climb_nth.
  - destruct n as [|n]; [lia|]. reflexivity.
  - intros k d Hk. rewrite climb_nth by lia. apply (Hlt (S k)). lia.
  - intros d. destruct n as [|n]; [lia|].
    rewrite climb_snoc, last_last. exact Hge.
Qed.

Lemma trajectory_shape_witness :
  simulate_balloon_ascent (fun _ => 1) 3 1 0 100009.8 [] [] [] 3 0
  = Returned [(0 + 3 * 1 * 0.1, 0 + (100009.8 - 1 * 9.8) / (1 + 0 * 1.225) * 0.1);
              (0 + 3 * 1 * 0.1 + 3 * 1 * 0.1,
               0 + (100009.8 - 1 * 9.8) / (1 + 0 * 1.225) * 0.1
                 + (100009.8 - 1 * 9.8) / (1 + 0 * 1.225) * 0.1)]
  /\ 20000 <= altitude (last [(0 + 3 * 1 * 0.1,
                               0 + (100009.8 - 1 * 9.8) / (1 + 0 * 1.225) * 0.1);
                              (0 + 3 * 1 * 0.1 + 3 * 1 * 0.1,
                               0 + (100009.8 - 1 * 9.8) / (1 + 0 * 1.225) * 0.1
                                 + (100009.8 - 1 * 9.8) / (1 + 0 * 1.225) * 0.1)]
                             (0, 0)).
Proof.
  split; [reflexivity|].
  apply (trajectory_shape (fun _ => 1) 3 1 0 100009.8 [] [] [] 3 0 _ eq_refl).
Defined.

(** C9, as stated, fails: with cargo mass 1, volume 0 and lift 100009.8 the
    vertical speed is 100000 m/s, the simulator returns two points, and the
    first one is [(0.3, 10000)], not the launch point [(0, 0)]. *)
Lemma trajectory_first_point_counterexample :
  exists first rest,
    simulate_balloon_ascent (fun _ => 1) 3 1 0 100009.8 [] [] [] 3 0
    = Returned (first :: rest)
    /\ position first == 0.3 /\ altitude first == 10000
    /\ ~ (position first == 0 /\ altitude first == 0).
Proof.
  eexists. eexists. split; [reflexivity|].
  split; [reflexivity|]. split; [reflexivity|].
  intros [H _]. discriminate H.
Qed.

(** ** The simulator: when it returns and when it does not *)







(** With a lift that does not exceed the weight, and a positive divisor, the
    vertical speed is not positive and the loop never leaves. *)
Lemma stalled_ascent cos fuel m V L t h p ws wd :
  L <= m * 9.8 -> 0 < total_mass m V ->
  simulate_balloon_ascent cos fuel m V L t h p ws wd = Running.
Proof.
  intros HL Hm. unfold simulate_balloon_ascent. apply loop_stays.
  - lra.
  - intros k.
    assert (height_after m V L k 0 <= 0)
      by (apply height_after_le; now apply vertical_speed_nonpos).
    lra.
Qed.

(** C4.  At the first configuration that the search simulates (cargo mass
    2, volume 10 and its lift 2.45, below the weight 19.6) the vertical
    speed is negative, and the simulator neither fails nor returns,
    whatever the fuel, the profiles and the wind: its loop goes on running
    with a height that never rises above 0. *)
Theorem simulate_seed_never_fails :
  2.45 <= 2 * 9.8
  /\ 10 * (1.225 - 1.2) * 9.8 == 2.45
  /\ vertical_speed 2 10 2.45 < 0
  /\ (forall k, height_after 2 10 2.45 k 0 <= 0)
  /\ forall cos fuel t h p ws wd,
       simulate_balloon_ascent cos fuel 2 10 2.45 t h p ws wd = Running
       /\ simulate_balloon_ascent cos fuel 2 10 2.45 t h p ws wd <> Failed.
Proof.
  split; [intros H; discriminate H|].
  split; [reflexivity|]. split; [reflexivity|]. split.
  - intros k. apply height_after_le, vertical_speed_nonpos;
      [intros H; discriminate H | reflexivity].
  - intros cos fuel t h p ws wd.
    assert (E : simulate_balloon_ascent cos fuel 2 10 2.45 t h p ws wd = Running)
      by (apply stalled_ascent; [intros H; discriminate H | reflexivity]).
    split; [exact E|]. rewrite E. discriminate.
Qed.

(** ** The maximum of a column *)

Lemma fold_Qmax_spec (rest : list Q) : forall x,
  (fold_left Qmax rest x = x \/ In (fold_left Qmax rest x) rest)
  /\ x <= fold_left Qmax rest x
  /\ Forall (fun y => y <= fold_left Qmax rest x) rest.
Proof.
  induction rest as [|y rest IH]; intros x; simpl.
  - repeat split; [now left | apply Qle_refl | constructor].
  - destruct (IH (Qmax x y)) as (Hin & Hle & Hall).
    repeat split.
    + destruct Hin as [E|Hin]; [|right; now right].
      rewrite E. unfold Qmax, GenericMinMax.gmax.
      destruct (x ?= y); [now left | right; now left | now left].
    + eapply Qle_trans; [apply Q.le_max_l | exact Hle].
    + constructor; [|exact Hall].
      eapply Qle_trans; [apply Q.le_max_r | exact Hle].
Qed.

(** [np_max] returns an element of the column that bounds all of them. *)
Lemma np_max_spec (column : list Q) (top : Q) :
  np_max column = Some top ->
  In top column /\ Forall (fun y => y <= top) column.
Proof.
  destruct column as [|x rest]; [discriminate|].
  simpl. intros [= <-].
  destruct (fold_Qmax_spec rest x) as (Hin & Hle & Hall). split.
  - destruct Hin as [E|Hin]; [left; now rewrite E | now right].
  - now constructor.
Qed.

(** ** The loop of the search *)

Section SearchFacts.

Variable cos : Q -> Q.
Variable sim_fuel : nat.
Variable target_height : Q.
Variables t h p : profile.
Variables ws wd : Q.

Abbreviation measure' := (measure cos sim_fuel t h p ws wd).
Abbreviation search := (search_loop cos sim_fuel target_height t h p ws wd).
Abbreviation from := (optimize_from cos sim_fuel target_height t h p ws wd).

Lemma measure_launch m V :
  fst (measure' m V) = Launch m V (V * (1.225 - 1.2) * 9.8).
Proof. reflexivity. Qed.

Lemma measure_returned m V top :
  snd (measure' m V) = Returned top ->
  exists trajectory,
    simulate_balloon_ascent cos sim_fuel m V (V * (1.225 - 1.2) * 9.8) t h p ws wd
    = Returned trajectory
    /\ np_max (heights trajectory) = Some top.
Proof.
  unfold measure. simpl snd.
  destruct (simulate_balloon_ascent _ _ _ _ _ _ _ _ _ _) as [trajectory| |];
    try discriminate.
  destruct (np_max (heights trajectory)) as [top'|] eqn:E; try discriminate.
  intros [= <-]. now exists trajectory.
Qed.

Lemma search_exit fuel m V top :
  Qabs (top - target_height) <= 100 ->
  search (S fuel) m V top = ([], Returned (m, V)).
Proof.
  intros H. cbn [search_loop]. apply Qltb_false in H. now rewrite H.
Qed.

(** One iteration of the loop that does not leave: the parameters are
    adjusted, the simulator is run on them, and the loop goes on with the
    height it measured. *)
Lemma search_iterate fuel m V top :
  100 < Qabs (top - target_height) ->
  search (S fuel) m V top
  = match snd (measure' (fst (adjust top target_height m V))
                        (snd (adjust top target_height m V))) with
    | Returned top' =>
        (fst (measure' (fst (adjust top target_height m V))
                       (snd (adjust top target_height m V)))
         :: fst (search fuel (fst (adjust top target_height m V))
                        (snd (adjust top target_height m V)) top'),
         snd (search fuel (fst (adjust top target_height m V))
                     (snd (adjust top target_height m V)) top'))
    | Failed =>
        ([fst (measure' (fst (adjust top target_height m V))
                        (snd (adjust top target_height m V)))], Failed)
    | Running =>
        ([fst (measure' (fst (adjust top target_height m V))
                        (snd (adjust top target_height m V)))], Running)
    end.
Proof.
  intros H. cbn [search_loop]. apply Qltb_true in H. rewrite H.
  destruct (adjust top target_height m V) as [m' V']. cbn [fst snd].
  destruct (measure' m' V') as [call measured].
  destruct measured as [top'| |]; try reflexivity.
  cbn [fst snd]. now destruct (search fuel m' V' top').
Qed.

Lemma adjust_cases top m V :
  (top < target_height
   /\ adjust top target_height m V = (m, V + 1))
  \/ (target_height <= top
      /\ adjust top target_height m V = (m - 0.1, V)).
Proof.
  unfold adjust. destruct (Qltb top target_height) eqn:E.
  - left. split; [now apply Qltb_true | reflexivity].
  - right. split; [now apply Qltb_false | reflexivity].
Qed.

Lemma adjust_bounds top m V :
  fst (adjust top target_height m V) <= m
  /\ V <= snd (adjust top target_height m V).
Proof.
  destruct (adjust_cases top m V) as [[_ E]|[_ E]]; rewrite E; simpl; lra.
Qed.

(** The loop leaves only through its test: the parameters it returns have
    been measured, and the height measured is within 100 of the target. *)
Lemma search_returned fuel : forall m V top m' V',
  snd (measure' m V) = Returned top ->
  snd (search fuel m V top) = Returned (m', V') ->
  exists top',
    snd (measure' m' V') = Returned top'
    /\ Qabs (top' - target_height) <= 100.
Proof.
  induction fuel as [|fuel IH]; intros m V top m' V' Hinv H; [discriminate|].
  destruct (Qlt_le_dec 100 (Qabs (top - target_height))) as [Hgo|Hstop].
  - rewrite (search_iterate _ _ _ _ Hgo) in H.
    set (m1 := fst (adjust top target_height m V)) in *.
    set (V1 := snd (adjust top target_height m V)) in *.
    destruct (snd (measure' m1 V1)) as [top1| |] eqn:E; try discriminate.
    cbn [snd] in H. exact (IH _ _ _ _ _ E H).
  - rewrite (search_exit _ _ _ _ Hstop) in H. injection H as <- <-.
    now exists top.
Qed.

(** Every launch of the loop, and the parameters it returns, have a mass
    at most the one it was entered with and a volume at least the one it
    was entered with. *)
Lemma search_bounded fuel : forall m V top,
  Forall (fun c => launch_mass c <= m /\ V <= launch_volume c)
         (fst (search fuel m V top))
  /\ (forall m' V', snd (search fuel m V top) = Returned (m', V') ->
                    m' <= m /\ V <= V').
Proof.
  induction fuel as [|fuel IH]; intros m V top.
  - simpl. split; [constructor | discriminate].
  - destruct (Qlt_le_dec 100 (Qabs (top - target_height))) as [Hgo|Hstop].
    + rewrite (search_iterate _ _ _ _ Hgo).
      destruct (adjust_bounds top m V) as [Hm HV].
      set (m1 := fst (adjust top target_height m V)) in *.
      set (V1 := snd (adjust top target_height m V)) in *.
      assert (Hcall : launch_mass (fst (measure' m1 V1)) <= m
                      /\ V <= launch_volume (fst (measure' m1 V1)))
        by (rewrite measure_launch; simpl; now split).
      destruct (snd (measure' m1 V1)) as [top1| |].
      * destruct (IH m1 V1 top1) as [Hall Hret]. split.
        -- cbn [fst]. constructor; [exact Hcall|].
           eapply Forall_impl; [|exact Hall].
           intros c [Hc1 Hc2]. split; eapply Qle_trans; eassumption.
        -- cbn [snd]. intros m' V' H. destruct (Hret _ _ H) as [H1 H2].
           split; eapply Qle_trans; eassumption.
      * split; [cbn [fst]; now repeat constructor | discriminate].
      * split; [cbn [fst]; now repeat constructor | discriminate].
    + rewrite (search_exit _ _ _ _ Hstop). split; [constructor|].
      cbn [snd]. intros m' V' [= <- <-]. split; apply Qle_refl.
Qed.

(** Every launch of the loop carries the lift of its own volume. *)
Lemma search_lift fuel : forall m V top,
  Forall (fun c => launch_lift c = launch_volume c * (1.225 - 1.2) * 9.8)
         (fst (search fuel m V top)).
Proof.
  induction fuel as [|fuel IH]; intros m V top; [constructor|].
  destruct (Qlt_le_dec 100 (Qabs (top - target_height))) as [Hgo|Hstop].
  - rewrite (search_iterate _ _ _ _ Hgo).
    set (m1 := fst (adjust top target_height m V)).
    set (V1 := snd (adjust top target_height m V)).
    destruct (snd (measure' m1 V1)) as [top1| |]; cbn [fst];
      repeat constructor. apply IH.
  - rewrite (search_exit _ _ _ _ Hstop). constructor.
Qed.

Lemma from_unfold fuel m V :
  from fuel m V
  = match snd (measure' m V) with
    | Returned top =>
        (fst (measure' m V) :: fst (search fuel m V top),
         snd (search fuel m V top))
    | Failed => ([fst (measure' m V)], Failed)
    | Running => ([fst (measure' m V)], Running)
    end.
Proof.
  unfold optimize_from. destruct (measure' m V) as [call measured].
  destruct measured as [top| |]; try reflexivity.
  cbn [fst snd]. now destruct (search fuel m V top).
Qed.

End SearchFacts.

(** A call of the simulator that returned returns the same trajectory with
    any larger fuel, and whatever the three profile arguments are. *)
Lemma simulate_fuel_mono cos fuel fuel' m V L t h p t' h' p' ws wd trajectory :
  simulate_balloon_ascent cos fuel m V L t h p ws wd = Returned trajectory ->
  (fuel <= fuel')%nat ->
  simulate_balloon_ascent cos fuel' m V L t' h' p' ws wd = Returned trajectory.
Proof.
  intros H Hf. apply simulate_returned in H.
  destruct H as (n & Hn & -> & Hge & Hlt & Hm).
  unfold simulate_balloon_ascent.
  rewrite (loop_runs _ _ _ _ _ _ n); [reflexivity|lia|assumption..].
Qed.

(** The search leaves only with parameters whose simulation it has just
    measured within 100 of the target. *)
Lemma search_converged cos sim_fuel target_height t h p ws wd fuel m0 V0 m V :
  snd (optimize_from cos sim_fuel target_height t h p ws wd fuel m0 V0)
  = Returned (m, V) ->
  exists top,
    snd (measure cos sim_fuel t h p ws wd m V) = Returned top
    /\ Qabs (top - target_height) <= 100.
Proof.
  rewrite from_unfold.
  destruct (snd (measure cos sim_fuel t h p ws wd m0 V0)) as [top| |] eqn:E;
    try discriminate.
  cbn [snd]. intros H. eapply search_returned; eassumption.
Qed.

(** The search entered at the source's own first parameters never gets past
    its first simulation: with mass 2 and volume 10 the lift 2.45 is below
    the weight 19.6, and the simulator does not return. *)
Lemma optimize_seed_stalls cos sim_fuel fuel target_height t h p ws wd :
  optimize_trace cos sim_fuel target_height t h p ws wd fuel
  = ([Launch 2 10 (10 * (1.225 - 1.2) * 9.8)], Running)
  /\ optimize_balloon_parameters cos sim_fuel fuel target_height t h p ws wd
     = Running.
Proof.
  assert (E : optimize_trace cos sim_fuel target_height t h p ws wd fuel
              = ([Launch 2 10 (10 * (1.225 - 1.2) * 9.8)], Running)).
  { unfold optimize_trace, optimize_from, measure.
    rewrite stalled_ascent; [reflexivity | intros H; discriminate H | reflexivity]. }
  split; [exact E|]. unfold optimize_balloon_parameters. now rewrite E.
Qed.

(** ** The search: convergence, adjustment, seed and bounds *)

(** C1.  Whenever the search returns a configuration [(mass, volume)] (from
    any first values of the two parameters; the source's are 2 and 10),
    running the simulator again on those values with the lift recomputed
    from the volume returns a trajectory whose maximum height is within
    100 of the target height. *)
Theorem optimizer_converged (cos : Q -> Q) (sim_fuel fuel : nat)
        (target_height : Q) (temperature1 humidity1 pressure1 : profile)
        (wind_speed wind_direction : Q)
        (first_mass first_volume mass_cargo volume_balloon : Q) :
  snd (optimize_from cos sim_fuel target_height temperature1 humidity1 pressure1
                     wind_speed wind_direction fuel first_mass first_volume)
  = Returned (mass_cargo, volume_balloon) ->
  exists (trajectory : list point) (max_height : Q),
    (forall fuel' temperature2 humidity2 pressure2,
        (sim_fuel <= fuel')%nat ->
        simulate_balloon_ascent cos fuel' mass_cargo volume_balloon
                                (volume_balloon * (1.225 - 1.2) * 9.8)
                                temperature2 humidity2 pressure2
                                wind_speed wind_direction
        = Returned trajectory)
    /\ np_max (heights trajectory) = Some max_height
    /\ In max_height (heights trajectory)
    /\ Forall (fun y => y <= max_height) (heights trajectory)
    /\ Qabs (max_height - target_height) <= 100.
Proof.
  intros H. apply search_converged in H. destruct H as (top & Hm & Hc).
  apply measure_returned in Hm. destruct Hm as (trajectory & Hs & Hmax).
  exists trajectory, top. destruct (np_max_spec _ _ Hmax) as [Hin Hall].
  repeat split; try assumption.
  intros fuel' t' h' p' Hf. eapply simulate_fuel_mono; eassumption.
Qed.

(** C5.  An iteration of the search loop (entered with the maximum height
    more than 100 away from the target) changes exactly one of the two
    parameters: the volume grows by 1 and the mass stays when the maximum
    height is below the target, and otherwise the mass drops by 0.1 and the
    volume stays; the next simulation is launched on the parameters so
    changed, and the loop goes on from them. *)
Theorem search_adjusts_one (cos : Q -> Q) (sim_fuel fuel : nat)
        (target_height : Q) (temperature1 humidity1 pressure1 : profile)
        (wind_speed wind_direction : Q)
        (mass_cargo volume_balloon max_height : Q) :
  100 < Qabs (max_height - target_height) ->
  exists mass_cargo' volume_balloon' : Q,
    ((max_height < target_height
      /\ mass_cargo' = mass_cargo /\ volume_balloon' = volume_balloon + 1)
     \/ (target_height <= max_height
         /\ mass_cargo' = mass_cargo - 0.1 /\ volume_balloon' = volume_balloon))
    /\ ((mass_cargo' = mass_cargo /\ ~ volume_balloon' == volume_balloon)
        \/ (volume_balloon' = volume_balloon /\ ~ mass_cargo' == mass_cargo))
    /\ hd_error (fst (search_loop cos sim_fuel target_height
                                  temperature1 humidity1 pressure1
                                  wind_speed wind_direction
                                  (S fuel) mass_cargo volume_balloon max_height))
       = Some (Launch mass_cargo' volume_balloon'
                      (volume_balloon' * (1.225 - 1.2) * 9.8))
    /\ (forall max_height',
          snd (measure cos sim_fuel temperature1 humidity1 pressure1
                       wind_speed wind_direction mass_cargo' volume_balloon')
          = Returned max_height' ->
          search_loop cos sim_fuel target_height temperature1 humidity1 pressure1
                      wind_speed wind_direction
                      (S fuel) mass_cargo volume_balloon max_height
          = (Launch mass_cargo' volume_balloon'
                    (volume_balloon' * (1.225 - 1.2) * 9.8)
             :: fst (search_loop cos sim_fuel target_height
                                 temperature1 humidity1 pressure1
                                 wind_speed wind_direction
                                 fuel mass_cargo' volume_balloon' max_height'),
             snd (search_loop cos sim_fuel target_height
                              temperature1 humidity1 pressure1
                              wind_speed wind_direction
                              fuel mass_cargo' volume_balloon' max_height'))).
Proof.
  intros Hgo.
  exists (fst (adjust max_height target_height mass_cargo volume_balloon)),
         (snd (adjust max_height target_height mass_cargo volume_balloon)).
  rewrite search_iterate by exact Hgo.
  destruct (adjust_cases target_height max_height mass_cargo volume_balloon)
    as [[Hlt E]|[Hge E]]; rewrite E; cbn [fst snd].
  - split; [left; repeat split; assumption|].
    split; [left; split; [reflexivity | lra]|].
    split.
    + now destruct (snd (measure _ _ _ _ _ _ _ _ _)).
    + intros top' ->. reflexivity.
  - split; [right; repeat split; assumption|].
    split; [right; split; [reflexivity | lra]|].
    split.
    + now destruct (snd (measure _ _ _ _ _ _ _ _ _)).
    + intros top' ->. reflexivity.
Qed.

(** A run of the search that returns.  With a cargo mass that is not
    negative and the lift of its volume, a balloon climbs at less than
    0.2 m/s, which is over a million iterations of 0.1 s up to 20000 m; the
    runs evaluated below start instead from mass -1224 and volume 1000,
    where the divisor is 1 and then 0.9, and the climbs take 17 and then 15
    iterations: the first maximum, 20808.34, is more than 100 above the
    target 20400, the mass is lowered once, and the second maximum is
    within 100 of the target. *)
Lemma optimizer_converged_witness :
  snd (optimize_from (fun _ => 1) 20 20400 [] [] [] 0 0 5 (-1224) 1000)
  = Returned (-1224 - 0.1, 1000)
  /\ exists (trajectory : list point) (max_height : Q),
       (forall fuel' temperature2 humidity2 pressure2,
           (20 <= fuel')%nat ->
           simulate_balloon_ascent (fun _ => 1) fuel' (-1224 - 0.1) 1000
                                   (1000 * (1.225 - 1.2) * 9.8)
                                   temperature2 humidity2 pressure2 0 0
           = Returned trajectory)
       /\ np_max (heights trajectory) = Some max_height
       /\ In max_height (heights trajectory)
       /\ Forall (fun y => y <= max_height) (heights trajectory)
       /\ Qabs (max_height - 20400) <= 100.
Proof.
  split; [vm_compute; reflexivity|].
  apply (optimizer_converged (fun _ => 1) 20 5 20400 [] [] [] 0 0 (-1224) 1000).
  vm_compute; reflexivity.
Defined.

Lemma search_adjusts_one_witness :
  100 < Qabs (20808.34 - 20400)
  /\ exists mass_cargo' volume_balloon' : Q,
       ((20808.34 < 20400
         /\ mass_cargo' = -1224 /\ volume_balloon' = 1000 + 1)
        \/ (20400 <= 20808.34
            /\ mass_cargo' = -1224 - 0.1 /\ volume_balloon' = 1000))
       /\ ((mass_cargo' = -1224 /\ ~ volume_balloon' == 1000)
           \/ (volume_balloon' = 1000 /\ ~ mass_cargo' == -1224))
       /\ hd_error (fst (search_loop (fun _ => 1) 20 20400 [] [] [] 0 0
                                     5 (-1224) 1000 20808.34))
          = Some (Launch mass_cargo' volume_balloon'
                         (volume_balloon' * (1.225 - 1.2) * 9.8))
       /\ (forall max_height',
             snd (measure (fun _ => 1) 20 [] [] [] 0 0 mass_cargo' volume_balloon')
             = Returned max_height' ->
             search_loop (fun _ => 1) 20 20400 [] [] [] 0 0 5 (-1224) 1000 20808.34
             = (Launch mass_cargo' volume_balloon'
                       (volume_balloon' * (1.225 - 1.2) * 9.8)
                :: fst (search_loop (fun _ => 1) 20 20400 [] [] [] 0 0
                                    4 mass_cargo' volume_balloon' max_height'),
                snd (search_loop (fun _ => 1) 20 20400 [] [] [] 0 0
                                 4 mass_cargo' volume_balloon' max_height'))).
Proof.
  split; [reflexivity|].
  apply (search_adjusts_one (fun _ => 1) 20 4 20400 [] [] [] 0 0 (-1224) 1000 20808.34).
  reflexivity.
Defined.

(** C6.  The search starts from mass 2 and volume 10, and every simulation
    it launches (from these or from any other first values) is given the
    lift [volume * (1.225 - 1.2) * 9.8] of the volume it is launched with. *)
Theorem search_seed_and_lift (cos : Q -> Q) (sim_fuel fuel : nat)
        (target_height : Q) (temperature1 humidity1 pressure1 : profile)
        (wind_speed wind_direction : Q) :
  optimize_balloon_parameters cos sim_fuel fuel target_height
                              temperature1 humidity1 pressure1
                              wind_speed wind_direction
  = snd (optimize_from cos sim_fuel target_height temperature1 humidity1 pressure1
                       wind_speed wind_direction fuel 2 10)
  /\ hd_error (fst (optimize_trace cos sim_fuel target_height
                                   temperature1 humidity1 pressure1
                                   wind_speed wind_direction fuel))
     = Some (Launch 2 10 (10 * (1.225 - 1.2) * 9.8))
  /\ (forall first_mass first_volume,
        Forall (fun c => launch_lift c = launch_volume c * (1.225 - 1.2) * 9.8)
               (fst (optimize_from cos sim_fuel target_height
                                   temperature1 humidity1 pressure1
                                   wind_speed wind_direction
                                   fuel first_mass first_volume)))
  /\ (forall mass_cargo volume_balloon,
        measure cos sim_fuel temperature1 humidity1 pressure1
                wind_speed wind_direction mass_cargo volume_balloon
        = (Launch mass_cargo volume_balloon (volume_balloon * (1.225 - 1.2) * 9.8),
           match simulate_balloon_ascent cos sim_fuel mass_cargo volume_balloon
                                         (volume_balloon * (1.225 - 1.2) * 9.8)
                                         temperature1 humidity1 pressure1
                                         wind_speed wind_direction with
           | Returned trajectory =>
               match np_max (heights trajectory) with
               | Some max_height => Returned max_height
               | None => Failed
               end
           | Failed => Failed
           | Running => Running
           end)).
Proof.
  split; [reflexivity|]. split.
  - unfold optimize_trace. rewrite from_unfold.
    now destruct (snd (measure _ _ _ _ _ _ _ _ _)).
  - split; [|reflexivity].
    intros m0 V0. rewrite from_unfold.
    destruct (snd (measure _ _ _ _ _ _ _ m0 V0)) as [top| |]; cbn [fst];
      repeat constructor.
    apply search_lift.
Qed.

(** C7.  In a run of the search from first values [first_mass] and
    [first_volume] (2 and 10 in the source), every simulation launched has
    a mass at most [first_mass] and a volume at least [first_volume], and
    so has the configuration that the search returns. *)
Theorem search_bounds (cos : Q -> Q) (sim_fuel fuel : nat)
        (target_height : Q) (temperature1 humidity1 pressure1 : profile)
        (wind_speed wind_direction : Q) (first_mass first_volume : Q) :
  Forall (fun c => launch_mass c <= first_mass /\ first_volume <= launch_volume c)
         (fst (optimize_from cos sim_fuel target_height
                             temperature1 humidity1 pressure1
                             wind_speed wind_direction
                             fuel first_mass first_volume))
  /\ (forall mass_cargo volume_balloon,
        snd (optimize_from cos sim_fuel target_height
                           temperature1 humidity1 pressure1
                           wind_speed wind_direction
                           fuel first_mass first_volume)
        = Returned (mass_cargo, volume_balloon) ->
        mass_cargo <= first_mass /\ first_volume <= volume_balloon)
  /\ Forall (fun c => launch_mass c <= 2 /\ 10 <= launch_volume c)
            (fst (optimize_trace cos sim_fuel target_height
                                 temperature1 humidity1 pressure1
                                 wind_speed wind_direction fuel))
  /\ (forall mass_cargo volume_balloon,
        optimize_balloon_parameters cos sim_fuel fuel target_height
                                    temperature1 humidity1 pressure1
                                    wind_speed wind_direction
        = Returned (mass_cargo, volume_balloon) ->
        mass_cargo <= 2 /\ 10 <= volume_balloon).
Proof.
  assert (G : forall m0 V0,
    Forall (fun c => launch_mass c <= m0 /\ V0 <= launch_volume c)
           (fst (optimize_from cos sim_fuel target_height
                               temperature1 humidity1 pressure1
                               wind_speed wind_direction fuel m0 V0))
    /\ (forall m V,
          snd (optimize_from cos sim_fuel target_height
                             temperature1 humidity1 pressure1
                             wind_speed wind_direction fuel m0 V0)
          = Returned (m, V) -> m <= m0 /\ V0 <= V)).
  { intros m0 V0. rewrite from_unfold.
    assert (Hcall : launch_mass (fst (measure cos sim_fuel temperature1 humidity1
                                              pressure1 wind_speed wind_direction
                                              m0 V0)) <= m0
                    /\ V0 <= launch_volume (fst (measure cos sim_fuel temperature1
                                                         humidity1 pressure1
                                                         wind_speed wind_direction
                                                         m0 V0)))
      by (rewrite measure_launch; simpl; split; apply Qle_refl).
    destruct (snd (measure _ _ _ _ _ _ _ m0 V0)) as [top| |].
    - destruct (search_bounded cos sim_fuel target_height temperature1 humidity1
                               pressure1 wind_speed wind_direction fuel m0 V0 top)
        as [Hall Hret].
      split; [cbn [fst]; now constructor | exact Hret].
    - split; [cbn [fst]; now repeat constructor | discriminate].
    - split; [cbn [fst]; now repeat constructor | discriminate]. }
  destruct (G first_mass first_volume) as [G1 G2].
  destruct (G 2 10) as [G3 G4].
  split; [exact G1|]. split; [exact G2|]. split; [exact G3 | exact G4].
Qed.

Lemma search_bounds_witness :
  optimize_from (fun _ => 1) 20 20400 [] [] [] 0 0 5 (-1224) 1000
  = ([Launch (-1224) 1000 (1000 * (1.225 - 1.2) * 9.8);
      Launch (-1224 - 0.1) 1000 (1000 * (1.225 - 1.2) * 9.8)],
     Returned (-1224 - 0.1, 1000))
  /\ (-1224 - 0.1 <= -1224 /\ 1000 <= 1000).
Proof.
  split; [vm_compute; reflexivity|].
  apply (search_bounds (fun _ => 1) 20 5 20400 [] [] [] 0 0 (-1224) 1000).
  vm_compute; reflexivity.
Defined.

(** ** The height grid *)

Lemma linspace_length start stop num : length (linspace start stop num) = num.
Proof.
  unfold linspace. now rewrite length_map, length_seq.
Qed.

Lemma linspace_nth start stop num j d :
  (j < num)%nat ->
  nth j (linspace start stop num) d
  = start + inject_Z (Z.of_nat j)
            * ((stop - start) / inject_Z (Z.of_nat (num - 1))).
Proof.
  intros Hj. unfold linspace. apply nth_error_nth.
  apply (map_nth_error
           (fun i => start + inject_Z (Z.of_nat i)
                             * ((stop - start) / inject_Z (Z.of_nat (num - 1))))
           j (seq 0 num)).
  rewrite (nth_error_nth' _ O) by now rewrite length_seq.
  now rewrite seq_nth.
Qed.

(** The grid of the source: 1000 heights, the [j]-th one [j * 20000 / 999],
    from 0 to 20000 and increasing. *)
Lemma height_grid :
  length (linspace 0 20000 1000) = 1000%nat
  /\ (forall j, (j < 1000)%nat ->
        nth j (linspace 0 20000 1000) 0 == inject_Z (Z.of_nat j) * (20000 / 999))
  /\ nth 0 (linspace 0 20000 1000) 0 == 0
  /\ nth 999 (linspace 0 20000 1000) 0 == 20000
  /\ (forall i j, (i < j < 1000)%nat ->
        nth i (linspace 0 20000 1000) 0 < nth j (linspace 0 20000 1000) 0).
Proof.
  assert (Hnth : forall j, (j < 1000)%nat ->
            nth j (linspace 0 20000 1000) 0
            == inject_Z (Z.of_nat j) * (20000 / 999)).
  { intros j Hj. rewrite linspace_nth by exact Hj.
    change (inject_Z (Z.of_nat (1000 - 1))) with 999. field. }
  split; [apply linspace_length|]. split; [exact Hnth|].
  split; [rewrite Hnth by lia; reflexivity|].
  split; [rewrite Hnth by lia; reflexivity|].
  intros i j Hij. rewrite !Hnth by lia.
  assert (inject_Z (Z.of_nat i) < inject_Z (Z.of_nat j)) by (rewrite <- Zlt_Qlt; lia).
  apply Qmult_lt_compat_r; [reflexivity | assumption].
Qed.

(** ** Linear interpolation *)

Lemma line_through_end x0 y0 x1 y1 x :
  x0 < x1 -> x == x1 -> line_through x0 y0 x1 y1 x == y1.
Proof.
  intros Hlt E. unfold line_through. rewrite E. field. lra.
Qed.

Lemma line_through_start x0 y0 x1 y1 x :
  x == x0 -> line_through x0 y0 x1 y1 x == y0.
Proof.
  intros E. unfold line_through. rewrite E. ring.
Qed.

Section InterpFacts.

Variable variable : level -> Q.

Abbreviation at_height data :=
  (interp_at (map height data) (map variable data)).

Lemma interp_at_here a b above x :
  height a <= x <= height b ->
  at_height (a :: b :: above) x
  = Some (line_through (height a) (variable a) (height b) (variable b) x).
Proof.
  intros [H1 H2]. simpl.
  apply Qle_bool_iff in H1. apply Qle_bool_iff in H2.
  now rewrite H1, H2.
Qed.

Lemma interp_at_next a b above x :
  ~ (height a <= x <= height b) ->
  at_height (a :: b :: above) x = at_height (b :: above) x.
Proof.
  intros H. simpl.
  destruct (Qle_bool (height a) x) eqn:E1;
    destruct (Qle_bool x (height b)) eqn:E2; try reflexivity.
  exfalso. apply H. split; now apply Qle_bool_iff.
Qed.

(** Between two neighbouring levels of a dataset whose heights increase,
    the interpolated value is on the line through them. *)
Lemma interp_at_segment below : forall a b above x,
  StronglySorted Qlt (map height (below ++ a :: b :: above)) ->
  height a <= x <= height b ->
  exists y,
    at_height (below ++ a :: b :: above) x = Some y
    /\ y == line_through (height a) (variable a) (height b) (variable b) x.
Proof.
  induction below as [|c below IH]; intros a b above x Hs Hx.
  - simpl app. rewrite interp_at_here by exact Hx.
    eexists. split; [reflexivity | apply Qeq_refl].
  - simpl app in *. simpl map in Hs. apply StronglySorted_inv in Hs.
    destruct Hs as [Hs Hc].
    destruct below as [|d below].
    + simpl app in *. simpl map in Hc.
      apply Forall_inv in Hc.
      destruct (Qlt_le_dec (height a) x) as [Hgt|Hle].
      * rewrite interp_at_next by lra. now apply (IH a b above x).
      * assert (Hxa : x == height a) by lra.
        destruct (Qlt_le_dec x (height c)) as [Hlt|Hge]; [lra|].
        rewrite interp_at_here by lra.
        eexists. split; [reflexivity|].
        rewrite line_through_end by assumption.
        now rewrite line_through_start.
    + simpl app in *.
      assert (Hda : height d < height a).
      { simpl map in Hs. apply StronglySorted_inv in Hs.
        destruct Hs as [_ Hd]. rewrite map_app in Hd.
        apply Forall_app in Hd. destruct Hd as [_ Hd].
        simpl map in Hd. now apply Forall_inv in Hd. }
      rewrite interp_at_next by lra. now apply (IH a b above x).
Qed.

Lemma last_default (l : list level) : forall a d d',
  last (a :: l) d = last (a :: l) d'.
Proof.
  induction l as [|b l IH]; intros a d d'; [reflexivity|].
  change (last (b :: l) d = last (b :: l) d'). apply IH.
Qed.

(** Between the first and the last level there is a pair of neighbours. *)
Lemma segment_exists : forall rest first x,
  rest <> [] ->
  height first <= x <= height (last rest first) ->
  exists below a b above,
    first :: rest = below ++ a :: b :: above
    /\ height a <= x <= height b.
Proof.
  induction rest as [|second rest IH]; intros first x Hne Hx; [congruence|].
  destruct (Qlt_le_dec (height second) x) as [Hgt|Hle].
  - destruct rest as [|third rest]; [simpl in Hx; lra|].
    destruct (IH second x) as (below & a & b & above & E & Hab).
    + discriminate.
    + split; [lra|]. destruct Hx as [_ Hx].
      rewrite (last_default rest third second first). exact Hx.
    + exists (first :: below), a, b, above. split; [|exact Hab].
      simpl. now rewrite E.
  - exists [], first, second, rest. split; [reflexivity | lra].
Qed.

Lemma interp_nth_error data grid j x :
  nth_error grid j = Some x ->
  nth_error (interp data variable grid) j
  = Some (at_height (sort_levels data) x).
Proof.
  intros H. unfold interp. now apply map_nth_error.
Qed.

End InterpFacts.

(** ** The levels in the order of their heights *)

Lemma insert_level_In a l x : In x (insert_level a l) <-> x = a \/ In x l.
Proof.
  induction l as [|b l IH]; simpl.
  - intuition.
  - destruct (Qle_bool (height a) (height b)); simpl; [intuition|].
    rewrite IH. intuition.
Qed.

Lemma sort_levels_In l x : In x (sort_levels l) <-> In x l.
Proof.
  induction l as [|a l IH]; simpl; [reflexivity|].
  rewrite insert_level_In, IH. intuition.
Qed.

Lemma insert_level_length a l : length (insert_level a l) = S (length l).
Proof.
  induction l as [|b l IH]; simpl; [reflexivity|].
  destruct (Qle_bool (height a) (height b)); simpl; [reflexivity|].
  now rewrite IH.
Qed.

Lemma sort_levels_length l : length (sort_levels l) = length l.
Proof.
  induction l as [|a l IH]; simpl; [reflexivity|].
  now rewrite insert_level_length, IH.
Qed.

Lemma insert_level_sorted a l :
  Forall (fun c => ~ height a == height c) l ->
  StronglySorted below_level l ->
  StronglySorted below_level (insert_level a l).
Proof.
  intros Hne Hs. induction l as [|b l IH]; simpl.
  - repeat constructor.
  - apply StronglySorted_inv in Hs. destruct Hs as [Hs Hb].
    pose proof (Forall_inv Hne) as Hab. apply Forall_inv_tail in Hne.
    destruct (Qle_bool (height a) (height b)) eqn:E.
    + apply Qle_bool_iff in E.
      assert (Hlt : height a < height b).
      { destruct (Qlt_le_dec (height a) (height b)) as [Hlt|Hge]; [exact Hlt|].
        exfalso. apply Hab. now apply Qle_antisym. }
      constructor; [now constructor|].
      constructor; [exact Hlt|].
      eapply Forall_impl; [|exact Hb].
      intros c Hc. unfold below_level in *. lra.
    + assert (Hlt : height b < height a).
      { apply Qnot_le_lt. intros H. apply Qle_bool_iff in H. congruence. }
      constructor; [now apply IH|].
      apply Forall_forall. intros c Hc. apply (proj1 (insert_level_In _ _ _)) in Hc.
      destruct Hc as [->|Hc]; [exact Hlt|].
      rewrite Forall_forall in Hb. now apply Hb.
Qed.

Lemma sort_levels_sorted l :
  distinct_heights l -> StronglySorted below_level (sort_levels l).
Proof.
  intros H. induction H as [|a l Ha Hl IH]; simpl; [constructor|].
  apply insert_level_sorted; [|exact IH].
  apply Forall_forall. intros c Hc. apply (proj1 (sort_levels_In _ _)) in Hc.
  rewrite Forall_forall in Ha. now apply Ha.
Qed.

Lemma below_level_heights l :
  StronglySorted below_level l <-> StronglySorted Qlt (map height l).
Proof.
  induction l as [|a l IH]; simpl; [split; constructor|].
  split; intros H; apply StronglySorted_inv in H; destruct H as [Hs Ha];
    (constructor; [now apply IH|]).
  - apply Forall_forall. intros x Hx. apply in_map_iff in Hx.
    destruct Hx as (c & <- & Hc). rewrite Forall_forall in Ha. now apply Ha.
  - apply Forall_forall. intros c Hc. rewrite Forall_forall in Ha.
    apply Ha. now apply in_map.
Qed.

(** A dataset listed by increasing heights is already in order. *)
Lemma sort_levels_sorted_id l :
  StronglySorted Qlt (map height l) -> sort_levels l = l.
Proof.
  induction l as [|a l IH]; intros H; [reflexivity|].
  simpl in *. apply StronglySorted_inv in H. destruct H as [Hs Ha].
  rewrite IH by exact Hs. destruct l as [|b l]; [reflexivity|].
  simpl. apply Forall_inv in Ha.
  assert (E : Qle_bool (height a) (height b) = true)
    by (apply Qle_bool_iff; simpl in Ha; lra).
  now rewrite E.
Qed.

Lemma distinct_not_repeated l :
  distinct_heights l -> repeated_height (map height l) = false.
Proof.
  intros H. induction H as [|a l Ha Hl IH]; simpl; [reflexivity|].
  rewrite IH, orb_false_r.
  destruct (existsb (Qeq_bool (height a)) (map height l)) eqn:E; [|reflexivity].
  apply existsb_exists in E. destruct E as (x & Hx & Hq).
  apply in_map_iff in Hx. destruct Hx as (c & <- & Hc).
  apply Qeq_bool_iff in Hq. rewrite Forall_forall in Ha.
  now apply Ha in Hc.
Qed.

(** Two levels with no level between them are neighbours in the order of
    the heights. *)
Lemma neighbours_adjacent l : forall a b,
  StronglySorted below_level l ->
  In a l -> In b l -> height a < height b ->
  (forall c, In c l -> height c <= height a \/ height b <= height c) ->
  exists below above, l = below ++ a :: b :: above.
Proof.
  induction l as [|c l IH]; intros a b Hs Ha Hb Hab Hnone; [contradiction|].
  apply StronglySorted_inv in Hs. destruct Hs as [Hs Hc].
  rewrite Forall_forall in Hc. unfold below_level in Hc.
  assert (Hbl : In b l).
  { destruct Hb as [->|Hb]; [|exact Hb].
    destruct Ha as [->|Ha]; [lra|]. apply Hc in Ha. lra. }
  destruct Ha as [->|Ha].
  - destruct l as [|d l]; [contradiction|].
    destruct Hbl as [->|Hbl]; [now exists [], l|].
    exfalso. apply StronglySorted_inv in Hs. destruct Hs as [_ Hd].
    rewrite Forall_forall in Hd. unfold below_level in Hd.
    specialize (Hd b Hbl). specialize (Hc d (or_introl eq_refl)).
    destruct (Hnone d (or_intror (or_introl eq_refl))); lra.
  - destruct (IH a b Hs Ha Hbl Hab) as (below & above & ->).
    + intros e He. apply Hnone. now right.
    + now exists (c :: below), above.
Qed.

(** The first level of an ordered dataset is the lowest and its last level
    the highest. *)
Lemma sorted_ends l : forall first c,
  StronglySorted below_level (first :: l) -> In c (first :: l) ->
  height first <= height c <= height (last l first).
Proof.
  induction l as [|second l IH]; intros first c Hs Hc.
  - destruct Hc as [->|[]]. simpl. split; lra.
  - apply StronglySorted_inv in Hs. destruct Hs as [Hs Hf].
    pose proof (Forall_inv Hf) as H12. unfold below_level in H12.
    rewrite (last_default l second first second).
    replace (last (second :: l) second) with (last l second)
      by (destruct l; reflexivity).
    destruct Hc as [->|Hc].
    + destruct (IH second second Hs (or_introl eq_refl)). split; lra.
    + destruct (IH second c Hs Hc). split; lra.
Qed.

(** ** The wind *)

Module WindFacts.

Import Reals Qreals Lra Wind.
Local Open Scope R_scope.

Lemma hypotenuse_nonneg (x y : R) : 0 <= x ^ 2 + y ^ 2.
Proof.
  pose proof (pow2_ge_0 x). pose proof (pow2_ge_0 y). lra.
Qed.

(** The length of [(x, y)] in terms of the slope [y / x]. *)
Lemma hypotenuse_slope (x y : R) :
  x <> 0 -> sqrt (x ^ 2 + y ^ 2) = Rabs x * sqrt (1 + (y / x)²).
Proof.
  intros Hx.
  replace (x ^ 2 + y ^ 2) with (x ^ 2 * (1 + (y / x)²))
    by (unfold Rsqr; field; exact Hx).
  rewrite sqrt_mult_alt by apply pow2_ge_0.
  f_equal. replace (x ^ 2) with (Rsqr x) by (unfold Rsqr; ring).
  apply sqrt_Rsqr_abs.
Qed.

Lemma slope_root_pos (t : R) : 0 < sqrt (1 + t²).
Proof.
  apply sqrt_lt_R0. pose proof (Rle_0_sqr t). lra.
Qed.

(** [arctan2 y x] is an angle of the point [(x, y)]. *)
Lemma arctan2_polar (x y : R) :
  sqrt (x ^ 2 + y ^ 2) * cos (arctan2 y x) = x
  /\ sqrt (x ^ 2 + y ^ 2) * sin (arctan2 y x) = y.
Proof.
  unfold arctan2.
  destruct (Rlt_dec 0 x) as [Hpos|Hnpos].
  - rewrite hypotenuse_slope by lra. rewrite Rabs_right by lra.
    rewrite cos_atan, sin_atan.
    pose proof (slope_root_pos (y / x)) as Hr.
    split; field; lra.
  - destruct (Rlt_dec x 0) as [Hneg|Hnneg].
    + assert (Hc : cos (atan (y / x) + PI) = - cos (atan (y / x))) by apply neg_cos.
      assert (Hs : sin (atan (y / x) + PI) = - sin (atan (y / x))) by apply neg_sin.
      assert (Hc' : cos (atan (y / x) - PI) = - cos (atan (y / x))).
      { rewrite cos_minus, cos_PI, sin_PI. ring. }
      assert (Hs' : sin (atan (y / x) - PI) = - sin (atan (y / x))).
      { rewrite sin_minus, cos_PI, sin_PI. ring. }
      pose proof (slope_root_pos (y / x)) as Hr.
      rewrite hypotenuse_slope by lra. rewrite Rabs_left by lra.
      destruct (Rle_dec 0 y).
      * rewrite Hc, Hs, cos_atan, sin_atan. split; field; lra.
      * rewrite Hc', Hs', cos_atan, sin_atan. split; field; lra.
    + assert (Hx : x = 0) by lra. subst x.
      replace (0 ^ 2 + y ^ 2) with (y ^ 2) by ring.
      destruct (Rlt_dec 0 y) as [Hy|Hy].
      * rewrite sqrt_pow2 by lra. rewrite cos_PI2, sin_PI2. split; ring.
      * destruct (Rlt_dec y 0) as [Hy'|Hy'].
        -- replace (y ^ 2) with ((- y) ^ 2) by ring.
           rewrite sqrt_pow2 by lra.
           rewrite cos_neg, sin_neg, cos_PI2, sin_PI2. split; ring.
        -- assert (Hy0 : y = 0) by lra. subst y.
           replace (0 ^ 2) with 0 by ring.
           rewrite sqrt_0. split; ring.
Qed.

(** [arctan2] is in radians, in the half-open turn from [-PI] to [PI]. *)
Lemma arctan2_range (x y : R) : - PI < arctan2 y x <= PI.
Proof.
  unfold arctan2. pose proof PI_RGT_0 as Hpi.
  pose proof (atan_bound (y / x)) as Hb.
  destruct (Rlt_dec 0 x) as [Hpos|Hnpos]; [lra|].
  destruct (Rlt_dec x 0) as [Hneg|Hnneg].
  - destruct (Rle_dec 0 y) as [Hy|Hy].
    + assert (atan (y / x) <= 0).
      { rewrite <- atan_0.
        destruct (Req_dec y 0) as [->|Hy0].
        - replace (0 / x) with 0 by (field; lra). lra.
        - left. apply atan_increasing.
          apply Rmult_lt_reg_r with (- x); [lra|].
          replace (y / x * - x) with (- y) by (field; lra). lra. }
      lra.
    + assert (0 < atan (y / x)).
      { rewrite <- atan_0. apply atan_increasing.
        apply Rmult_lt_reg_r with (- x); [lra|].
        replace (y / x * - x) with (- y) by (field; lra). lra. }
      lra.
  - destruct (Rlt_dec 0 y); [lra|]. destruct (Rlt_dec y 0); lra.
Qed.

Lemma speed_nonneg (u v : Q) : 0 <= speed u v.
Proof. apply sqrt_pos. Qed.

Lemma speed_square (u v : Q) : speed u v * speed u v = Q2R u ^ 2 + Q2R v ^ 2.
Proof. apply sqrt_sqrt, hypotenuse_nonneg. Qed.

(** Speed and direction are the polar coordinates of the wind. *)
Lemma wind_polar (u v : Q) :
  speed u v * cos (direction u v) = Q2R u
  /\ speed u v * sin (direction u v) = Q2R v.
Proof. apply arctan2_polar. Qed.

Lemma direction_range (u v : Q) : - PI < direction u v <= PI.
Proof. apply arctan2_range. Qed.

End WindFacts.

(** ** The profile preparation *)

(** The three profiles and the two wind arrays that the preparation
    returns. *)
Lemma analyze_outputs data t' h' p' ws wd :
  analyze_atmospheric_data data = Returned (t', h', p', ws, wd) ->
  t' = interp data temperature (linspace 0 20000 1000)
  /\ h' = interp data humidity (linspace 0 20000 1000)
  /\ p' = interp data pressure (linspace 0 20000 1000)
  /\ ws = map (fun l => Wind.speed (u_wind l) (v_wind l)) data
  /\ wd = map (fun l => Wind.direction (u_wind l) (v_wind l)) data
  /\ data <> []
  /\ repeated_height (map height data) = false.
Proof.
  unfold analyze_atmospheric_data. destruct data as [|a data]; [discriminate|].
  destruct (repeated_height (map height (a :: data))); [discriminate|].
  cbv zeta. intros E.
  assert (E' : (interp (a :: data) temperature (linspace 0 20000 1000),
                interp (a :: data) humidity (linspace 0 20000 1000),
                interp (a :: data) pressure (linspace 0 20000 1000),
                map (fun l => Wind.speed (u_wind l) (v_wind l)) (a :: data),
                map (fun l => Wind.direction (u_wind l) (v_wind l)) (a :: data))
               = (t', h', p', ws, wd))
    by exact (f_equal (fun r => match r with Returned v => v | _ => (t', h', p', ws, wd) end) E).
  clear E. repeat split.
  - exact (eq_sym (f_equal (fun r => fst (fst (fst (fst r)))) E')).
  - exact (eq_sym (f_equal (fun r => snd (fst (fst (fst r)))) E')).
  - exact (eq_sym (f_equal (fun r => snd (fst (fst r))) E')).
  - exact (eq_sym (f_equal (fun r => snd (fst r)) E')).
  - exact (eq_sym (f_equal (fun r => snd r) E')).
  - discriminate.
Qed.

(** On a dataset of distinct heights the preparation returns. *)
Lemma analyze_returns data :
  data <> [] -> distinct_heights data ->
  analyze_atmospheric_data data
  = Returned (interp data temperature (linspace 0 20000 1000),
              interp data humidity (linspace 0 20000 1000),
              interp data pressure (linspace 0 20000 1000),
              map (fun l => Wind.speed (u_wind l) (v_wind l)) data,
              map (fun l => Wind.direction (u_wind l) (v_wind l)) data).
Proof.
  intros Hne Hd. unfold analyze_atmospheric_data.
  destruct data as [|a data]; [congruence|].
  now rewrite (distinct_not_repeated _ Hd).
Qed.

(** [interp] on a dataset of distinct heights: between two levels that are
    neighbours in height, the line through them; and a value everywhere
    between two levels. *)
Lemma interp_between (variable : level -> Q) data grid j x :
  distinct_heights data ->
  nth_error grid j = Some x ->
  (forall a b,
      In a data -> In b data -> height a < height b ->
      height a <= x <= height b ->
      (forall c, In c data -> height c <= height a \/ height b <= height c) ->
      exists y,
        nth_error (interp data variable grid) j = Some (Some y)
        /\ y == variable a
                + (x - height a) * ((variable b - variable a) / (height b - height a)))
  /\ (forall lo hi,
        In lo data -> In hi data -> height lo < height hi ->
        height lo <= x <= height hi ->
        exists y, nth_error (interp data variable grid) j = Some (Some y)).
Proof.
  intros Hd Hj.
  pose proof (sort_levels_sorted data Hd) as Hs.
  rewrite (interp_nth_error variable data grid j x Hj).
  split.
  - intros a b Ha Hb Hab Hx Hnone.
    destruct (neighbours_adjacent (sort_levels data) a b Hs) as (below & above & E).
    + now apply sort_levels_In.
    + now apply sort_levels_In.
    + exact Hab.
    + intros c Hc. apply Hnone. now apply (proj1 (sort_levels_In _ _)).
    + rewrite E in Hs |- *. apply below_level_heights in Hs.
      destruct (interp_at_segment variable below a b above x Hs Hx) as (y & Ey & Hy).
      exists y. split; [now rewrite Ey | exact Hy].
  - intros lo hi Hlo Hhi Hlh Hx.
    destruct (sort_levels data) as [|first rest] eqn:E.
    + apply (proj2 (sort_levels_In data lo)) in Hlo. rewrite E in Hlo. contradiction.
    + assert (Hlo' : In lo (first :: rest))
        by (rewrite <- E; now apply sort_levels_In).
      assert (Hhi' : In hi (first :: rest))
        by (rewrite <- E; now apply sort_levels_In).
      destruct (sorted_ends rest first lo Hs Hlo') as [H1 _].
      destruct (sorted_ends rest first hi Hs Hhi') as [_ H2].
      destruct (segment_exists rest first x) as (below & a & b & above & E' & Hab).
      * intros ->. simpl in H2. lra.
      * split; lra.
      * rewrite E' in Hs |- *. apply below_level_heights in Hs.
        destruct (interp_at_segment variable below a b above x Hs Hab) as (y & Ey & _).
        exists y. now rewrite Ey.
Qed.

Module Analysis.
Import Reals Qreals.

(** C8.  For a dataset of at least two levels, no two of them at the same
    height, the profile preparation returns: the temperature, humidity and
    pressure profiles have exactly 1000 values, one for each height
    [j * 20000 / 999] of the grid that runs from 0 to 20000; at a grid
    height between two levels that are neighbours in height the value is
    the one of the line through them,
    [variable a + (x - height a) * (variable b - variable a) / (height b - height a)],
    and there is a value at every grid height between two levels; the wind
    speed and the wind direction have one value for each level of the
    dataset, [sqrt (u^2 + v^2)] and [arctan2 v u], an angle in radians
    between [-PI] and [PI] with [speed * cos direction = u] and
    [speed * sin direction = v]. *)
Theorem analyze_resamples (atmospheric_data : dataset) :
  (2 <= length atmospheric_data)%nat ->
  distinct_heights atmospheric_data ->
  exists (temperature' humidity' pressure' : profile)
         (wind_speed wind_direction : list R),
    analyze_atmospheric_data atmospheric_data
    = Returned (temperature', humidity', pressure', wind_speed, wind_direction)
    /\ (length temperature' = 1000%nat
        /\ length humidity' = 1000%nat
        /\ length pressure' = 1000%nat)
    /\ (length (linspace 0 20000 1000) = 1000%nat
        /\ (forall j, (j < 1000)%nat ->
              nth j (linspace 0 20000 1000) 0
              == inject_Z (Z.of_nat j) * (20000 / 999))
        /\ nth 0 (linspace 0 20000 1000) 0 == 0
        /\ nth 999 (linspace 0 20000 1000) 0 == 20000
        /\ (forall i j, (i < j < 1000)%nat ->
              nth i (linspace 0 20000 1000) 0 < nth j (linspace 0 20000 1000) 0))
    /\ (forall (variable : level -> Q) (out : profile) (j : nat) (x : Q),
          (variable = temperature /\ out = temperature')
          \/ (variable = humidity /\ out = humidity')
          \/ (variable = pressure /\ out = pressure') ->
          nth_error (linspace 0 20000 1000) j = Some x ->
          (forall a b,
              In a atmospheric_data -> In b atmospheric_data ->
              height a < height b ->
              height a <= x <= height b ->
              (forall c, In c atmospheric_data ->
                         height c <= height a \/ height b <= height c) ->
              exists y,
                nth_error out j = Some (Some y)
                /\ y == variable a
                        + (x - height a)
                          * ((variable b - variable a) / (height b - height a)))
          /\ (forall lo hi,
                In lo atmospheric_data -> In hi atmospheric_data ->
                height lo < height hi ->
                height lo <= x <= height hi ->
                exists y, nth_error out j = Some (Some y)))
    /\ (length wind_speed = length atmospheric_data
        /\ length wind_direction = length atmospheric_data)
    /\ (forall i l,
          nth_error atmospheric_data i = Some l ->
          exists speed direction : R,
            nth_error wind_speed i = Some speed
            /\ nth_error wind_direction i = Some direction
            /\ speed = sqrt (Q2R (u_wind l) ^ 2
                                    + Q2R (v_wind l) ^ 2)%R
            /\ direction = Wind.arctan2 (Q2R (v_wind l))
                                        (Q2R (u_wind l))
            /\ (0 <= speed)%R
            /\ (- PI < direction <= PI)%R
            /\ (speed * cos direction = Q2R (u_wind l))%R
            /\ (speed * sin direction = Q2R (v_wind l))%R).
Proof.
  intros Hlen Hd.
  assert (Hne : atmospheric_data <> [])
    by (destruct atmospheric_data; [simpl in Hlen; lia | discriminate]).
  do 5 eexists. split; [now apply analyze_returns|].
  split.
  { unfold interp. now rewrite !length_map, linspace_length. }
  split; [exact height_grid|].
  split.
  { intros variable out j x Hv Hj.
    destruct Hv as [[-> ->]|[[-> ->]|[-> ->]]]; now apply interp_between. }
  split; [now rewrite !length_map|].
  intros i l Hi.
  exists (Wind.speed (u_wind l) (v_wind l)), (Wind.direction (u_wind l) (v_wind l)).
  split; [exact (map_nth_error (fun l => Wind.speed (u_wind l) (v_wind l)) i _ Hi)|].
  split; [exact (map_nth_error (fun l => Wind.direction (u_wind l) (v_wind l)) i _ Hi)|].
  split; [reflexivity|]. split; [reflexivity|].
  split; [apply WindFacts.speed_nonneg|].
  split; [apply WindFacts.direction_range|].
  apply WindFacts.wind_polar.
Qed.

(** The dataset of the evaluation below is listed from the top level down. *)
Lemma analyze_resamples_witness :
  ((2 <= length [Level 20000 216 5 5500 6 8; Level 0 288 80 101325 3 4])%nat
   /\ distinct_heights [Level 20000 216 5 5500 6 8; Level 0 288 80 101325 3 4])
  /\ exists (temperature' humidity' pressure' : profile)
            (wind_speed wind_direction : list R),
       analyze_atmospheric_data [Level 20000 216 5 5500 6 8;
                                 Level 0 288 80 101325 3 4]
       = Returned (temperature', humidity', pressure', wind_speed, wind_direction)
       /\ (length temperature' = 1000%nat
           /\ length humidity' = 1000%nat
           /\ length pressure' = 1000%nat)
       /\ (length wind_speed = 2%nat /\ length wind_direction = 2%nat).
Proof.
  assert (Hd : distinct_heights [Level 20000 216 5 5500 6 8;
                                 Level 0 288 80 101325 3 4]).
  { constructor; [|constructor; constructor].
    constructor; [|constructor]. simpl. intros H; discriminate H. }
  split; [split; [simpl; lia | exact Hd]|].
  destruct (analyze_resamples [Level 20000 216 5 5500 6 8; Level 0 288 80 101325 3 4])
    as (t & h & p & ws & wd & E & Hl & _ & _ & Hw & _).
  - simpl; lia.
  - exact Hd.
  - exists t, h, p, ws, wd.
    split; [exact E|]. split; [exact Hl | exact Hw].
Defined.

(** C8, as stated, fails: a dataset of four levels, two of them at
    10000 m, has at least two levels, yet the preparation returns no
    profile: [interp] raises on the repeated height and the [except] branch
    returns five [None]. *)
Lemma analyze_repeated_height_counterexample :
  (2 <= length [Level 0 288 80 101325 3 4; Level 10000 223 30 26500 5 6;
                Level 10000 224 29 26400 5 7; Level 20000 216 5 5500 6 8])%nat
  /\ analyze_atmospheric_data
       [Level 0 288 80 101325 3 4; Level 10000 223 30 26500 5 6;
        Level 10000 224 29 26400 5 7; Level 20000 216 5 5500 6 8]
     = Failed.
Proof.
  split; [simpl; lia | reflexivity].
Qed.

End Analysis.

(** * Further properties of the simulator *)

Lemma position_after_closed cos ws wd n hp :
  position_after cos ws wd n hp
  == hp + inject_Z (Z.of_nat n) * (horizontal_speed cos ws wd * dt).
Proof.
  induction n as [|n IH].
  - simpl. ring.
  - rewrite position_after_S, IH, Nat2Z.inj_succ. unfold Z.succ.
    rewrite inject_Z_plus. ring.
Qed.


(** A trajectory is returned only by a positive step. *)
Lemma returned_speed_positive cos fuel m V L t h p ws wd trajectory :
  simulate_balloon_ascent cos fuel m V L t h p ws wd = Returned trajectory ->
  0 < vertical_speed m V L * dt.
Proof.
  intros H. apply simulate_returned in H.
  destruct H as (n & Hn & _ & Hge & _ & _).
  rewrite height_after_closed in Hge.
  destruct (Qlt_le_dec 0 (vertical_speed m V L * dt)) as [Hp|Hnp]; [exact Hp|].
  exfalso.
  assert (height_after m V L n 0 <= 0) by now apply height_after_le.
  rewrite height_after_closed in H. lra.
Qed.

(** X2.  The points of a returned trajectory lie on a straight line from
    the launch state, evenly spaced: the [k]-th point (counted from 0) is
    [((k + 1) * horizontal_speed * 0.1, (k + 1) * vertical_speed * 0.1)],
    so that the height of a point times the horizontal speed is its
    horizontal position times the vertical speed. *)
Theorem trajectory_closed_form (cos : Q -> Q) (fuel : nat)
        (mass_cargo volume_balloon lift_force : Q)
        (temperature1 humidity1 pressure1 : profile)
        (wind_speed wind_direction : Q) (trajectory : list point) :
  simulate_balloon_ascent cos fuel mass_cargo volume_balloon lift_force
                          temperature1 humidity1 pressure1
                          wind_speed wind_direction = Returned trajectory ->
  forall k d, (k < length trajectory)%nat ->
    position (nth k trajectory d)
    == inject_Z (Z.of_nat (S k)) * (wind_speed * cos wind_direction * 0.1)
    /\ altitude (nth k trajectory d)
       == inject_Z (Z.of_nat (S k))
          * ((lift_force - mass_cargo * 9.8)
             / (mass_cargo + volume_balloon * 1.225) * 0.1)
    /\ altitude (nth k trajectory d) * (wind_speed * cos wind_direction)
       == position (nth k trajectory d)
          * ((lift_force - mass_cargo * 9.8)
             / (mass_cargo + volume_balloon * 1.225)).
Proof.
  intros H k d Hk. apply simulate_returned in H.
  destruct H as (n & Hn & -> & _).
  rewrite climb_length in Hk. rewrite climb_nth by exact Hk.
  unfold position, altitude, fst, snd.
  pose proof (position_after_closed cos wind_speed wind_direction (S k) 0) as Hp.
  pose proof (height_after_closed mass_cargo volume_balloon lift_force (S k) 0) as Hh.
  unfold horizontal_speed, vertical_speed, total_mass, dt in *.
  rewrite Hp, Hh. repeat split; ring.
Qed.

Lemma trajectory_closed_form_witness :
  simulate_balloon_ascent (fun _ => 1) 3 1 0 100009.8 [] [] [] 3 0
  = Returned (climb (fun _ => 1) 1 0 100009.8 3 0 2 0 0)
  /\ (position (nth 1 (climb (fun _ => 1) 1 0 100009.8 3 0 2 0 0) (0, 0))
      == inject_Z (Z.of_nat 2) * (3 * 1 * 0.1)
      /\ altitude (nth 1 (climb (fun _ => 1) 1 0 100009.8 3 0 2 0 0) (0, 0))
         == inject_Z (Z.of_nat 2)
            * ((100009.8 - 1 * 9.8) / (1 + 0 * 1.225) * 0.1)
      /\ altitude (nth 1 (climb (fun _ => 1) 1 0 100009.8 3 0 2 0 0) (0, 0))
         * (3 * 1)
         == position (nth 1 (climb (fun _ => 1) 1 0 100009.8 3 0 2 0 0) (0, 0))
            * ((100009.8 - 1 * 9.8) / (1 + 0 * 1.225))).
Proof.
  split; [reflexivity|].
  apply (trajectory_closed_form (fun _ => 1) 3 1 0 100009.8 [] [] [] 3 0 _ eq_refl).
  simpl. lia.
Defined.

(** ** The maximum of the heights *)

Lemma Qmax_right (x y : Q) : x < y -> Qmax x y = y.
Proof.
  intros H. unfold Qmax, GenericMinMax.gmax.
  destruct (Qcompare x y) eqn:E; [|reflexivity|].
  - apply Qeq_alt in E. lra.
  - apply Qgt_alt in E. lra.
Qed.

(** Along a climb with a positive step the running maximum is the height
    reached last. *)
Lemma climb_max cos m V L ws wd n : forall h hp x,
  0 < vertical_speed m V L * dt ->
  x < h + vertical_speed m V L * dt ->
  fold_left Qmax (heights (climb cos m V L ws wd (S n) h hp)) x
  = height_after m V L (S n) h.
Proof.
  induction n as [|n IH]; intros h hp x Hd Hx.
  - simpl. now apply Qmax_right.
  - change (heights (climb cos m V L ws wd (S (S n)) h hp))
      with ((h + vertical_speed m V L * dt)
            :: heights (climb cos m V L ws wd (S n)
                              (h + vertical_speed m V L * dt)
                              (hp + horizontal_speed cos ws wd * dt))).
    cbn [fold_left]. rewrite (Qmax_right _ _ Hx).
    rewrite IH; [reflexivity|exact Hd|lra].
Qed.

(** The maximum of a returned trajectory's heights is its last height, at
    or above 20000 and less than one step above it. *)
Lemma returned_max cos fuel m V L t h p ws wd trajectory :
  simulate_balloon_ascent cos fuel m V L t h p ws wd = Returned trajectory ->
  np_max (heights trajectory) = Some (altitude (last trajectory (0, 0)))
  /\ 20000 <= altitude (last trajectory (0, 0))
  /\ altitude (last trajectory (0, 0)) < 20000 + vertical_speed m V L * dt.
Proof.
  intros H. pose proof (returned_speed_positive _ _ _ _ _ _ _ _ _ _ _ H) as Hd.
  apply simulate_returned in H.
  destruct H as (n & Hn & -> & Hge & Hlt & _).
  destruct n as [|n]; [lia|].
  assert (Elast : altitude (last (climb cos m V L ws wd (S n) 0 0) (0, 0))
                  = height_after m V L (S n) 0)
    by (rewrite climb_snoc, last_last; reflexivity).
  rewrite Elast. repeat split.
  - change (heights (climb cos m V L ws wd (S n) 0 0))
      with ((0 + vertical_speed m V L * dt)
            :: heights (climb cos m V L ws wd n
                              (0 + vertical_speed m V L * dt)
                              (0 + horizontal_speed cos ws wd * dt))).
    cbn [np_max]. f_equal.
    destruct n as [|n]; [reflexivity|].
    rewrite climb_max; [reflexivity|exact Hd|lra].
  - exact Hge.
  - rewrite height_after_S. specialize (Hlt n (Nat.lt_succ_diag_r n)). lra.
Qed.

(** X3.  The maximum of the heights of a returned trajectory, which is what
    the search measures, is the height of its last point, and it lies
    between 20000 and 20000 plus one step: the trajectory overshoots the
    ceiling of the loop by less than [vertical_speed * 0.1]. *)
Theorem max_height_is_last (cos : Q -> Q) (fuel : nat)
        (mass_cargo volume_balloon lift_force : Q)
        (temperature1 humidity1 pressure1 : profile)
        (wind_speed wind_direction : Q) (trajectory : list point) :
  simulate_balloon_ascent cos fuel mass_cargo volume_balloon lift_force
                          temperature1 humidity1 pressure1
                          wind_speed wind_direction = Returned trajectory ->
  np_max (heights trajectory) = Some (altitude (last trajectory (0, 0)))
  /\ 20000 <= altitude (last trajectory (0, 0))
  /\ altitude (last trajectory (0, 0))
     < 20000 + (lift_force - mass_cargo * 9.8)
               / (mass_cargo + volume_balloon * 1.225) * 0.1.
Proof.
  intros H. exact (returned_max _ _ _ _ _ _ _ _ _ _ _ H).
Qed.

Lemma max_height_is_last_witness :
  simulate_balloon_ascent (fun _ => 1) 3 1 0 100009.8 [] [] [] 3 0
  = Returned (climb (fun _ => 1) 1 0 100009.8 3 0 2 0 0)
  /\ np_max (heights (climb (fun _ => 1) 1 0 100009.8 3 0 2 0 0))
     = Some (altitude (last (climb (fun _ => 1) 1 0 100009.8 3 0 2 0 0) (0, 0)))
  /\ 20000 <= altitude (last (climb (fun _ => 1) 1 0 100009.8 3 0 2 0 0) (0, 0))
  /\ altitude (last (climb (fun _ => 1) 1 0 100009.8 3 0 2 0 0) (0, 0))
     < 20000 + (100009.8 - 1 * 9.8) / (1 + 0 * 1.225) * 0.1.
Proof.
  split; [reflexivity|].
  apply (max_height_is_last (fun _ => 1) 3 1 0 100009.8 [] [] [] 3 0 _ eq_refl).
Defined.

(** * Further properties of the search *)

(** A height that the search measures is the last height of a returned
    trajectory: at or above 20000 and less than one step above it. *)
Lemma measured_bounds cos sim_fuel t h p ws wd m V top :
  snd (measure cos sim_fuel t h p ws wd m V) = Returned top ->
  20000 <= top
  /\ top < 20000 + vertical_speed m V (V * (1.225 - 1.2) * 9.8) * dt.
Proof.
  intros H. apply measure_returned in H.
  destruct H as (trajectory & Hs & Hmax).
  destruct (returned_max _ _ _ _ _ _ _ _ _ _ _ Hs) as (E & Hge & Hlt).
  rewrite E in Hmax. injection Hmax as <-. now split.
Qed.

(** X4.  The search can return only for a target height near the ceiling
    of the simulator: whenever it returns a configuration, from any first
    values, the target is at least 19900 and less than 20100 plus one step
    of the returned configuration.  For a target below 19900 no run of the
    search returns. *)
Theorem search_returns_near_ceiling (cos : Q -> Q) (sim_fuel fuel : nat)
        (target_height : Q) (temperature1 humidity1 pressure1 : profile)
        (wind_speed wind_direction : Q)
        (first_mass first_volume mass_cargo volume_balloon : Q) :
  snd (optimize_from cos sim_fuel target_height temperature1 humidity1 pressure1
                     wind_speed wind_direction fuel first_mass first_volume)
  = Returned (mass_cargo, volume_balloon) ->
  19900 <= target_height
  /\ target_height
     < 20100 + (volume_balloon * (1.225 - 1.2) * 9.8 - mass_cargo * 9.8)
               / (mass_cargo + volume_balloon * 1.225) * 0.1.
Proof.
  intros H. apply search_converged in H. destruct H as (top & Hm & Hc).
  apply measured_bounds in Hm. destruct Hm as [Hge Hlt].
  apply Qabs_Qle_condition in Hc.
  unfold vertical_speed, total_mass, dt in Hlt. split; lra.
Qed.

Lemma search_returns_near_ceiling_witness :
  snd (optimize_from (fun _ => 1) 20 20400 [] [] [] 0 0 5 (-1224) 1000)
  = Returned (-1224 - 0.1, 1000)
  /\ 19900 <= 20400
  /\ 20400 < 20100 + (1000 * (1.225 - 1.2) * 9.8 - (-1224 - 0.1) * 9.8)
                     / (-1224 - 0.1 + 1000 * 1.225) * 0.1.
Proof.
  split; [vm_compute; reflexivity|].
  apply (search_returns_near_ceiling (fun _ => 1) 20 5 20400 [] [] [] 0 0
                                     (-1224) 1000).
  vm_compute; reflexivity.
Defined.

(** Every launch of the loop is one adjustment further from where the loop
    was entered: its volume gained plus ten times its mass lost is its
    rank. *)
Lemma search_conserves cos sim_fuel target_height t h p ws wd fuel :
  forall m V top i c,
    nth_error (fst (search_loop cos sim_fuel target_height t h p ws wd
                                fuel m V top)) i = Some c ->
    (launch_volume c - V) + (m - launch_mass c) * 10
    == inject_Z (Z.of_nat (S i)).
Proof.
  induction fuel as [|fuel IH]; intros m V top i c H.
  - destruct i; discriminate H.
  - destruct (Qlt_le_dec 100 (Qabs (top - target_height))) as [Hgo|Hstop].
    + rewrite search_iterate in H by exact Hgo.
      assert (Hstep : (snd (adjust top target_height m V) - V)
                      + (m - fst (adjust top target_height m V)) * 10 == 1).
      { destruct (adjust_cases target_height top m V) as [[_ E]|[_ E]];
          rewrite E; simpl; ring. }
      set (m1 := fst (adjust top target_height m V)) in *.
      set (V1 := snd (adjust top target_height m V)) in *.
      assert (Hfirst : forall c', Some (fst (measure cos sim_fuel t h p ws wd m1 V1))
                                  = Some c' ->
                (launch_volume c' - V) + (m - launch_mass c') * 10 == 1).
      { intros c' [= <-]. exact Hstep. }
      destruct (snd (measure cos sim_fuel t h p ws wd m1 V1)) as [top1| |];
        cbn [fst] in H.
      * destruct i as [|i].
        -- simpl in H. rewrite (Hfirst c H). reflexivity.
        -- simpl in H. apply IH in H.
           rewrite (Nat2Z.inj_succ (S i)). unfold Z.succ.
           rewrite inject_Z_plus, <- H.
           change (inject_Z 1) with 1. rewrite <- Hstep. ring.
      * destruct i as [|[|i]]; try discriminate H.
        simpl in H. rewrite (Hfirst c H). reflexivity.
      * destruct i as [|[|i]]; try discriminate H.
        simpl in H. rewrite (Hfirst c H). reflexivity.
    + rewrite search_exit in H by exact Hstop. destruct i; discriminate H.
Qed.

(** X5.  Along a run of the search the two parameters account for every
    adjustment: the launch of rank [i] (the first launch has rank 0) has
    gained [a] in volume and lost [b / 10] in mass since the first launch,
    with [a + b = i]. *)
Theorem search_counts_adjustments (cos : Q -> Q) (sim_fuel fuel : nat)
        (target_height : Q) (temperature1 humidity1 pressure1 : profile)
        (wind_speed wind_direction : Q) (first_mass first_volume : Q)
        (i : nat) (c : launch) :
  nth_error (fst (optimize_from cos sim_fuel target_height
                                temperature1 humidity1 pressure1
                                wind_speed wind_direction
                                fuel first_mass first_volume)) i = Some c ->
  (launch_volume c - first_volume) + (first_mass - launch_mass c) * 10
  == inject_Z (Z.of_nat i).
Proof.
  rewrite from_unfold.
  assert (Hfirst : forall c',
            Some (fst (measure cos sim_fuel temperature1 humidity1 pressure1
                               wind_speed wind_direction first_mass first_volume))
            = Some c' ->
            (launch_volume c' - first_volume) + (first_mass - launch_mass c') * 10
            == 0).
  { intros c' [= <-]. cbn [measure fst launch_volume launch_mass]. ring. }
  destruct (snd (measure cos sim_fuel temperature1 humidity1 pressure1
                         wind_speed wind_direction first_mass first_volume))
    as [top| |]; cbn [fst]; intros H.
  - destruct i as [|i].
    + simpl in H. now rewrite (Hfirst c H).
    + simpl in H. now apply search_conserves in H.
  - destruct i as [|[|i]]; try discriminate H. simpl in H. now rewrite (Hfirst c H).
  - destruct i as [|[|i]]; try discriminate H. simpl in H. now rewrite (Hfirst c H).
Qed.

Lemma search_counts_adjustments_witness :
  nth_error (fst (optimize_from (fun _ => 1) 20 20400 [] [] [] 0 0 5 (-1224) 1000)) 1
  = Some (Launch (-1224 - 0.1) 1000 (1000 * (1.225 - 1.2) * 9.8))
  /\ (1000 - 1000) + (-1224 - (-1224 - 0.1)) * 10 == inject_Z (Z.of_nat 1).
Proof.
  split; [vm_compute; reflexivity|].
  apply (search_counts_adjustments (fun _ => 1) 20 5 20400 [] [] [] 0 0 (-1224) 1000
           1 (Launch (-1224 - 0.1) 1000 (1000 * (1.225 - 1.2) * 9.8))).
  vm_compute; reflexivity.
Defined.

(** With a target below 19900 every measured height is more than 100 above
    it: the loop never leaves through its test and only lowers the mass. *)
Lemma search_low_target cos sim_fuel target_height t h p ws wd fuel :
  target_height < 19900 ->
  forall m V top,
    20000 <= top ->
    Forall (fun c => launch_volume c = V)
           (fst (search_loop cos sim_fuel target_height t h p ws wd fuel m V top))
    /\ forall configuration,
         snd (search_loop cos sim_fuel target_height t h p ws wd fuel m V top)
         <> Returned configuration.
Proof.
  intros Ht. induction fuel as [|fuel IH]; intros m V top Htop.
  - simpl. split; [constructor | discriminate].
  - assert (Hgo : 100 < Qabs (top - target_height)).
    { pose proof (Qle_Qabs (top - target_height)). lra. }
    rewrite search_iterate by exact Hgo.
    destruct (adjust_cases target_height top m V) as [[Hlt _]|[_ E]]; [lra|].
    rewrite E. cbn [fst snd].
    destruct (snd (measure cos sim_fuel t h p ws wd (m - 0.1) V)) as [top1| |] eqn:Em.
    + apply measured_bounds in Em. destruct Em as [Hge _].
      destruct (IH (m - 0.1) V top1 Hge) as [Hall Hret].
      split; [cbn [fst]; now constructor | exact Hret].
    + split; [cbn [fst]; now repeat constructor | discriminate].
    + split; [cbn [fst]; now repeat constructor | discriminate].
Qed.

(** X6.  For a target height below 19900 the search never changes the
    volume and never returns: in every run, from any first values, the
    launch of rank [i] has the first volume and the first mass lowered [i]
    times by 0.1, and the outcome is not a configuration. *)
Theorem low_target_only_lowers_mass (cos : Q -> Q) (sim_fuel fuel : nat)
        (target_height : Q) (temperature1 humidity1 pressure1 : profile)
        (wind_speed wind_direction : Q) (first_mass first_volume : Q) :
  target_height < 19900 ->
  (forall i c,
      nth_error (fst (optimize_from cos sim_fuel target_height
                                    temperature1 humidity1 pressure1
                                    wind_speed wind_direction
                                    fuel first_mass first_volume)) i = Some c ->
      launch_volume c = first_volume
      /\ launch_mass c == first_mass - inject_Z (Z.of_nat i) * 0.1)
  /\ (forall configuration,
        snd (optimize_from cos sim_fuel target_height
                           temperature1 humidity1 pressure1
                           wind_speed wind_direction
                           fuel first_mass first_volume)
        <> Returned configuration).
Proof.
  intros Ht.
  assert (Hvol : Forall (fun c => launch_volume c = first_volume)
                        (fst (optimize_from cos sim_fuel target_height
                                            temperature1 humidity1 pressure1
                                            wind_speed wind_direction
                                            fuel first_mass first_volume))
                 /\ forall configuration,
                      snd (optimize_from cos sim_fuel target_height
                                         temperature1 humidity1 pressure1
                                         wind_speed wind_direction
                                         fuel first_mass first_volume)
                      <> Returned configuration).
  { rewrite from_unfold.
    destruct (snd (measure cos sim_fuel temperature1 humidity1 pressure1
                           wind_speed wind_direction first_mass first_volume))
      as [top| |] eqn:Em.
    - apply measured_bounds in Em. destruct Em as [Hge _].
      destruct (search_low_target cos sim_fuel target_height temperature1 humidity1
                  pressure1 wind_speed wind_direction fuel Ht
                  first_mass first_volume top Hge) as [Hall Hret].
      split; [cbn [fst]; now constructor | exact Hret].
    - split; [cbn [fst]; now repeat constructor | discriminate].
    - split; [cbn [fst]; now repeat constructor | discriminate]. }
  destruct Hvol as [Hvol Hret]. split; [|exact Hret].
  intros i c Hc.
  assert (Hv : launch_volume c = first_volume).
  { rewrite Forall_forall in Hvol. apply Hvol. eapply nth_error_In; eassumption. }
  split; [exact Hv|].
  assert (Hcount : (launch_volume c - first_volume)
                   + (first_mass - launch_mass c) * 10 == inject_Z (Z.of_nat i)).
  { revert Hc. rewrite from_unfold.
    destruct (snd (measure cos sim_fuel temperature1 humidity1 pressure1
                           wind_speed wind_direction first_mass first_volume))
      as [top| |]; cbn [fst]; intros Hc.
    - destruct i as [|i].
      + injection Hc as <-. cbn [measure fst launch_volume launch_mass]. ring.
      + simpl in Hc. now apply search_conserves in Hc.
    - destruct i as [|[|i]]; try discriminate Hc.
      injection Hc as <-. cbn [measure fst launch_volume launch_mass]. ring.
    - destruct i as [|[|i]]; try discriminate Hc.
      injection Hc as <-. cbn [measure fst launch_volume launch_mass]. ring. }
  rewrite Hv in Hcount. lra.
Qed.

Lemma low_target_only_lowers_mass_witness :
  10000 < 19900
  /\ (forall i c,
         nth_error (fst (optimize_from (fun _ => 1) 20 10000 [] [] [] 0 0
                                       5 (-1224) 1000)) i = Some c ->
         launch_volume c = 1000
         /\ launch_mass c == -1224 - inject_Z (Z.of_nat i) * 0.1)
  /\ (forall configuration,
         snd (optimize_from (fun _ => 1) 20 10000 [] [] [] 0 0 5 (-1224) 1000)
         <> Returned configuration).
Proof.
  split; [reflexivity|].
  apply (low_target_only_lowers_mass (fun _ => 1) 20 5 10000 [] [] [] 0 0
                                     (-1224) 1000).
  reflexivity.
Defined.

(** X7.  A configuration whose volume is at most 40 times its mass (and
    whose divisor is positive) never lifts off: a search entered there
    launches one simulation and never gets past it.  The source's own first
    values, mass 2 and volume 10, are such a configuration, so that
    [optimize_balloon_parameters] returns nothing, whatever its arguments
    and the fuel. *)
Theorem search_never_lifts_off (cos : Q -> Q) (sim_fuel fuel : nat)
        (target_height : Q) (temperature1 humidity1 pressure1 : profile)
        (wind_speed wind_direction : Q) :
  (forall first_mass first_volume,
      first_volume <= 40 * first_mass ->
      0 < first_mass + first_volume * 1.225 ->
      optimize_from cos sim_fuel target_height temperature1 humidity1 pressure1
                    wind_speed wind_direction fuel first_mass first_volume
      = ([Launch first_mass first_volume (first_volume * (1.225 - 1.2) * 9.8)],
         Running))
  /\ optimize_balloon_parameters cos sim_fuel fuel target_height
                                 temperature1 humidity1 pressure1
                                 wind_speed wind_direction = Running.
Proof.
  assert (G : forall m0 V0,
             V0 <= 40 * m0 -> 0 < m0 + V0 * 1.225 ->
             optimize_from cos sim_fuel target_height temperature1 humidity1
                           pressure1 wind_speed wind_direction fuel m0 V0
             = ([Launch m0 V0 (V0 * (1.225 - 1.2) * 9.8)], Running)).
  { intros m0 V0 Hv Hm. unfold optimize_from, measure.
    rewrite stalled_ascent; [reflexivity| |exact Hm]. lra. }
  split; [exact G|].
  unfold optimize_balloon_parameters, optimize_trace.
  rewrite G; [reflexivity | lra | lra].
Qed.

(** * Further properties of the profile preparation *)

Section InterpMore.

Variable variable : level -> Q.

(** An interpolated value is on the line through two neighbouring levels
    that enclose the point, or it is the value of a level at the point's
    own height. *)
Lemma interp_at_some : forall data x y,
  interp_at (map height data) (map variable data) x = Some y ->
  (exists below a b above,
      data = below ++ a :: b :: above
      /\ height a <= x <= height b
      /\ y = line_through (height a) (variable a) (height b) (variable b) x)
  \/ (exists l, In l data /\ x == height l /\ y = variable l).
Proof.
  induction data as [|a data IH]; intros x y H; [discriminate|].
  destruct data as [|b data].
  - simpl in H. destruct (Qeq_bool x (height a)) eqn:E; [|discriminate].
    injection H as <-. right. exists a. split; [now left|].
    split; [now apply Qeq_bool_iff | reflexivity].
  - assert (Hrec : interp_at (map height (b :: data)) (map variable (b :: data)) x
                   = Some y ->
                   (exists below a' b' above,
                       a :: b :: data = below ++ a' :: b' :: above
                       /\ height a' <= x <= height b'
                       /\ y = line_through (height a') (variable a')
                                           (height b') (variable b') x)
                   \/ (exists l, In l (a :: b :: data)
                                 /\ x == height l /\ y = variable l)).
    { intros H'. apply IH in H'.
      destruct H' as [(below & a' & b' & above & E & Hx & Hy)|(l & Hl & Hx & Hy)].
      - left. exists (a :: below), a', b', above.
        split; [simpl; now rewrite E | now split].
      - right. exists l. split; [now right | now split]. }
    destruct (Qlt_le_dec x (height a)) as [Hlo|Hlo].
    + rewrite interp_at_next in H by lra. now apply Hrec.
    + destruct (Qlt_le_dec (height b) x) as [Hhi|Hhi].
      * rewrite interp_at_next in H by lra. now apply Hrec.
      * rewrite interp_at_here in H by (split; assumption).
        injection H as <-. left. exists [], a, b, data.
        repeat split; assumption.
Qed.

Lemma sorted_suffix (below rest : list Q) :
  StronglySorted Qlt (below ++ rest) -> StronglySorted Qlt rest.
Proof.
  induction below as [|c below IH]; intros H; [exact H|].
  simpl in H. apply StronglySorted_inv in H. now apply IH.
Qed.

(** The line through two points of a line is that line. *)
Lemma line_through_linear slope intercept x0 x1 x :
  x0 < x1 ->
  line_through x0 (slope * x0 + intercept) x1 (slope * x1 + intercept) x
  == slope * x + intercept.
Proof.
  intros H. unfold line_through. field. lra.
Qed.

Lemma interp_linear_data data grid slope intercept j x y :
  StronglySorted Qlt (map height data) ->
  (forall l, In l data -> variable l == slope * height l + intercept) ->
  nth_error grid j = Some x ->
  nth_error (interp data variable grid) j = Some (Some y) ->
  y == slope * x + intercept.
Proof.
  intros Hs Hlin Hj Hy.
  rewrite (interp_nth_error variable data grid j x Hj) in Hy.
  rewrite (sort_levels_sorted_id data Hs) in Hy.
  injection Hy as Hy. apply interp_at_some in Hy.
  destruct Hy as [(below & a & b & above & -> & Hx & ->)|(l & Hl & Hx & ->)].
  - assert (Hab : height a < height b).
    { rewrite map_app in Hs. apply sorted_suffix in Hs.
      simpl map in Hs. apply StronglySorted_inv in Hs.
      destruct Hs as [_ Hs]. now apply Forall_inv in Hs. }
    unfold line_through.
    rewrite (Hlin a), (Hlin b) by (apply in_or_app; right; simpl; tauto).
    now apply line_through_linear.
  - rewrite (Hlin l Hl), Hx. reflexivity.
Qed.

End InterpMore.

(** X9.  The profile preparation reproduces a linear profile: when a
    variable (temperature, humidity or pressure) of a dataset of increasing
    heights is [slope * height + intercept] at every level, each value of
    its resampled profile is [slope * x + intercept] at its grid height
    [x]. *)
Theorem analyze_reproduces_lines (atmospheric_data : dataset)
        (temperature' humidity' pressure' : profile)
        (wind_speed wind_direction : list Rdefinitions.R)
        (variable : level -> Q) (out : profile) (slope intercept : Q)
        (j : nat) (x y : Q) :
  analyze_atmospheric_data atmospheric_data
  = Returned (temperature', humidity', pressure', wind_speed, wind_direction) ->
  (variable = temperature /\ out = temperature')
  \/ (variable = humidity /\ out = humidity')
  \/ (variable = pressure /\ out = pressure') ->
  StronglySorted Qlt (map height atmospheric_data) ->
  (forall l, In l atmospheric_data ->
             variable l == slope * height l + intercept) ->
  nth_error (linspace 0 20000 1000) j = Some x ->
  nth_error out j = Some (Some y) ->
  y == slope * x + intercept.
Proof.
  intros E Hvar Hs Hlin Hj Hy.
  destruct (analyze_outputs _ _ _ _ _ _ E) as (Et & Eh & Ep & _).
  destruct Hvar as [[Ev Eo]|[[Ev Eo]|[Ev Eo]]]; subst variable out;
    [rewrite Et in Hy | rewrite Eh in Hy | rewrite Ep in Hy];
    eapply interp_linear_data; eassumption.
Qed.

Lemma analyze_reproduces_lines_witness :
  nth_error (linspace 0 20000 1000) 1 = Some (0 + 1 * ((20000 - 0) / 999))
  /\ nth_error (interp [Level 0 288 80 101325 3 4; Level 20000 216 5 5500 6 8]
                       temperature (linspace 0 20000 1000)) 1
     = Some (Some (line_through 0 288 20000 216 (0 + 1 * ((20000 - 0) / 999))))
  /\ line_through 0 288 20000 216 (0 + 1 * ((20000 - 0) / 999))
     == (-0.0036) * (0 + 1 * ((20000 - 0) / 999)) + 288.
Proof.
  split; [reflexivity|]. split; [reflexivity|].
  apply (analyze_reproduces_lines
           [Level 0 288 80 101325 3 4; Level 20000 216 5 5500 6 8]
           (interp [Level 0 288 80 101325 3 4; Level 20000 216 5 5500 6 8]
                   temperature (linspace 0 20000 1000))
           (interp [Level 0 288 80 101325 3 4; Level 20000 216 5 5500 6 8]
                   humidity (linspace 0 20000 1000))
           (interp [Level 0 288 80 101325 3 4; Level 20000 216 5 5500 6 8]
                   pressure (linspace 0 20000 1000))
           (map (fun l => Wind.speed (u_wind l) (v_wind l))
                [Level 0 288 80 101325 3 4; Level 20000 216 5 5500 6 8])
           (map (fun l => Wind.direction (u_wind l) (v_wind l))
                [Level 0 288 80 101325 3 4; Level 20000 216 5 5500 6 8])
           temperature
           (interp [Level 0 288 80 101325 3 4; Level 20000 216 5 5500 6 8]
                   temperature (linspace 0 20000 1000))
           (-0.0036) 288 1 (0 + 1 * ((20000 - 0) / 999))).
  - apply analyze_returns; [discriminate|].
    constructor; [|constructor; constructor].
    constructor; [|constructor]. simpl. intros H; discriminate H.
  - left. split; reflexivity.
  - repeat constructor.
  - intros l [<-|[<-|[]]]; reflexivity.
  - reflexivity.
  - reflexivity.
Defined.

(** * The request of [get_atmospheric_data] *)

Module RequestFacts.

Import Ascii String Request.

Lemma split_on_nonempty sep s : split_on sep s <> [].
Proof.
  destruct s as [|c rest]; simpl; [discriminate|].
  destruct (Ascii.eqb c sep); [discriminate|].
  destruct (split_on sep rest); discriminate.
Qed.

(** One more piece than there are separators. *)
Lemma split_on_length sep s :
  List.length (split_on sep s) = S (occurrences sep s).
Proof.
  induction s as [|c rest IH]; simpl; [reflexivity|].
  destruct (Ascii.eqb c sep); simpl; [now rewrite IH|].
  destruct (split_on sep rest) as [|piece pieces] eqn:E; simpl in *;
    [discriminate IH | exact IH].
Qed.

(** Joining the pieces with the separator gives the string back. *)
Lemma split_on_join sep s :
  String.concat (String sep EmptyString) (split_on sep s) = s.
Proof.
  induction s as [|c rest IH]; simpl; [reflexivity|].
  destruct (Ascii.eqb c sep) eqn:Ec.
  - apply Ascii.eqb_eq in Ec. subst c.
    destruct (split_on sep rest) as [|piece pieces] eqn:E.
    + now apply split_on_nonempty in E.
    + simpl in *. now rewrite IH.
  - destruct (split_on sep rest) as [|piece pieces] eqn:E.
    + now apply split_on_nonempty in E.
    + destruct pieces as [|piece' pieces]; simpl in *; now rewrite <- IH.
Qed.

(** X11.  [get_atmospheric_data] builds its request only from a region with
    at least three ['/']: with fewer, indexing the split region raises and
    there is no address (the function returns [None]).  Otherwise the
    address carries the first, second, fourth and third piece of the region
    as [leftlon], [rightlon], [toplat] and [bottomlat], pieces after the
    fourth are ignored, and the pieces joined by ['/'] are the region
    itself. *)
Theorem request_url_fields (region date_str : string) :
  (request_url region date_str = None <-> (occurrences "/"%char region < 3)%nat)
  /\ (forall url,
        request_url region date_str = Some url ->
        exists leftlon rightlon bottomlat toplat rest,
          split_on "/"%char region = leftlon :: rightlon :: bottomlat :: toplat :: rest
          /\ String.concat "/"%string (leftlon :: rightlon :: bottomlat :: toplat :: rest)
             = region
          /\ List.length rest = (occurrences "/"%char region - 3)%nat
          /\ url = String.concat EmptyString
                     [base_url;
                      "?file=gfs.t00z.pgrb2.0p25.f000&lev_2_m_above_ground=on&var_TCDC=on&var_TMP=on&var_RH=on&var_UGRD=on&var_VGRD=on&subregion=&leftlon="%string;
                      leftlon; "&rightlon="%string; rightlon;
                      "&toplat="%string; toplat;
                      "&bottomlat="%string; bottomlat;
                      "&dir=%2Fgfs."%string; date_str; "%2F00%2Fatmos"%string]).
Proof.
  pose proof (split_on_length "/"%char region) as Hlen.
  pose proof (split_on_join "/"%char region) as Hjoin.
  unfold request_url.
  destruct (split_on "/"%char region) as [|f0 [|f1 [|f2 [|f3 rest]]]];
    cbn [List.length] in Hlen.
  - discriminate Hlen.
  - split; [split; [lia | reflexivity] | discriminate].
  - split; [split; [lia | reflexivity] | discriminate].
  - split; [split; [lia | reflexivity] | discriminate].
  - split.
    + split; [discriminate | lia].
    + intros url [= <-]. exists f0, f1, f2, f3, rest.
      split; [reflexivity|]. split; [exact Hjoin|]. split; [lia | reflexivity].
Qed.

End RequestFacts.

(** * The search from a mass that is not negative *)

(** With a mass that is not negative a balloon climbs at 0.2 m/s at most. *)
Lemma step_bound m V :
  0 <= m -> 0 < total_mass m V ->
  vertical_speed m V (V * (1.225 - 1.2) * 9.8) * dt <= 0.02.
Proof.
  intros Hm Hd. unfold vertical_speed, dt.
  assert (H : (V * (1.225 - 1.2) * 9.8 - m * 9.8) / total_mass m V <= 0.2).
  { apply Qle_shift_div_r; [exact Hd|]. unfold total_mass in *. lra. }
  lra.
Qed.

Lemma search_high_target cos sim_fuel target_height t h p ws wd fuel :
  20100.02 <= target_height ->
  forall m V top,
    0 <= m -> 0 < V -> top < 20000.02 ->
    Forall (fun c => launch_mass c = m)
           (fst (search_loop cos sim_fuel target_height t h p ws wd fuel m V top))
    /\ forall configuration,
         snd (search_loop cos sim_fuel target_height t h p ws wd fuel m V top)
         <> Returned configuration.
Proof.
  intros Ht. induction fuel as [|fuel IH]; intros m V top Hm HV Htop.
  - simpl. split; [constructor | discriminate].
  - assert (Hgo : 100 < Qabs (top - target_height)).
    { rewrite Qabs_neg by lra. lra. }
    rewrite search_iterate by exact Hgo.
    destruct (adjust_cases target_height top m V) as [[_ E]|[Hge _]]; [|lra].
    rewrite E. cbn [fst snd].
    destruct (snd (measure cos sim_fuel t h p ws wd m (V + 1))) as [top1| |] eqn:Em.
    + apply measured_bounds in Em. destruct Em as [_ Hlt].
      assert (Hstep : vertical_speed m (V + 1) ((V + 1) * (1.225 - 1.2) * 9.8) * dt
                      <= 0.02)
        by (apply step_bound; [exact Hm | unfold total_mass; lra]).
      destruct (IH m (V + 1) top1) as [Hall Hret]; [exact Hm|lra|lra|].
      split; [cbn [fst]; now constructor | exact Hret].
    + split; [cbn [fst]; now repeat constructor | discriminate].
    + split; [cbn [fst]; now repeat constructor | discriminate].
Qed.

(** X13.  From a mass that is not negative and a positive volume, a search
    for a target height of 20100.02 or more never changes the mass and
    never returns: in every run the launch of rank [i] has the first mass
    and the first volume raised [i] times by 1, and the outcome is not a
    configuration. *)
Theorem high_target_only_raises_volume (cos : Q -> Q) (sim_fuel fuel : nat)
        (target_height : Q) (temperature1 humidity1 pressure1 : profile)
        (wind_speed wind_direction : Q) (first_mass first_volume : Q) :
  0 <= first_mass -> 0 < first_volume -> 20100.02 <= target_height ->
  (forall i c,
      nth_error (fst (optimize_from cos sim_fuel target_height
                                    temperature1 humidity1 pressure1
                                    wind_speed wind_direction
                                    fuel first_mass first_volume)) i = Some c ->
      launch_mass c = first_mass
      /\ launch_volume c == first_volume + inject_Z (Z.of_nat i))
  /\ (forall configuration,
        snd (optimize_from cos sim_fuel target_height
                           temperature1 humidity1 pressure1
                           wind_speed wind_direction
                           fuel first_mass first_volume)
        <> Returned configuration).
Proof.
  intros Hm HV Ht.
  assert (Hmass : Forall (fun c => launch_mass c = first_mass)
                         (fst (optimize_from cos sim_fuel target_height
                                             temperature1 humidity1 pressure1
                                             wind_speed wind_direction
                                             fuel first_mass first_volume))
                  /\ forall configuration,
                       snd (optimize_from cos sim_fuel target_height
                                          temperature1 humidity1 pressure1
                                          wind_speed wind_direction
                                          fuel first_mass first_volume)
                       <> Returned configuration).
  { rewrite from_unfold.
    destruct (snd (measure cos sim_fuel temperature1 humidity1 pressure1
                           wind_speed wind_direction first_mass first_volume))
      as [top| |] eqn:Em.
    - apply measured_bounds in Em. destruct Em as [_ Hlt].
      assert (Hstep : vertical_speed first_mass first_volume
                                     (first_volume * (1.225 - 1.2) * 9.8) * dt
                      <= 0.02)
        by (apply step_bound; [exact Hm | unfold total_mass; lra]).
      destruct (search_high_target cos sim_fuel target_height temperature1 humidity1
                  pressure1 wind_speed wind_direction fuel Ht
                  first_mass first_volume top Hm HV) as [Hall Hret]; [lra|].
      split; [cbn [fst]; now constructor | exact Hret].
    - split; [cbn [fst]; now repeat constructor | discriminate].
    - split; [cbn [fst]; now repeat constructor | discriminate]. }
  destruct Hmass as [Hmass Hret]. split; [|exact Hret].
  intros i c Hc.
  assert (Hmc : launch_mass c = first_mass).
  { rewrite Forall_forall in Hmass. apply Hmass. eapply nth_error_In; eassumption. }
  split; [exact Hmc|].
  assert (Hcount : (launch_volume c - first_volume)
                   + (first_mass - launch_mass c) * 10 == inject_Z (Z.of_nat i)).
  { revert Hc. rewrite from_unfold.
    destruct (snd (measure cos sim_fuel temperature1 humidity1 pressure1
                           wind_speed wind_direction first_mass first_volume))
      as [top| |]; cbn [fst]; intros Hc.
    - destruct i as [|i].
      + injection Hc as <-. cbn [measure fst launch_volume launch_mass]. ring.
      + simpl in Hc. now apply search_conserves in Hc.
    - destruct i as [|[|i]]; try discriminate Hc.
      injection Hc as <-. cbn [measure fst launch_volume launch_mass]. ring.
    - destruct i as [|[|i]]; try discriminate Hc.
      injection Hc as <-. cbn [measure fst launch_volume launch_mass]. ring. }
  rewrite Hmc in Hcount. lra.
Qed.

Lemma high_target_only_raises_volume_witness :
  (0 <= 2 /\ 0 < 100 /\ 20100.02 <= 25000)
  /\ (forall i c,
         nth_error (fst (optimize_from (fun _ => 1) 20 25000 [] [] [] 0 0
                                       5 2 100)) i = Some c ->
         launch_mass c = 2
         /\ launch_volume c == 100 + inject_Z (Z.of_nat i))
  /\ (forall configuration,
         snd (optimize_from (fun _ => 1) 20 25000 [] [] [] 0 0 5 2 100)
         <> Returned configuration).
Proof.
  split; [repeat split; lra|].
  apply (high_target_only_raises_volume (fun _ => 1) 20 5 25000 [] [] [] 0 0 2 100);
    lra.
Defined.


